(** * The cyclic countdown timer of React_Practice

    A shallow embedding of the three timer implementations of the repository:

    - the function component [Timer] of
      [08-basics/04-effect/src/components/Timer.tsx] (state and both effects
      inline, the boundary effect without a dependency array);
    - the custom hook [useTimer] (use-timer.ts) with the function component
      [Timer] that calls it; the boundary effect has the dependency array
      [[countLeft, maxCount]];
    - the class component [Timer] of the second half of Timer.tsx, with
      [componentDidMount], [componentDidUpdate] and [componentWillUnmount].

    A JavaScript [number] with an integer value is embedded as [Z], and
    [c - 1] is the subtraction of binary64 ([Number.minus_one]): exact
    between [-2^53] and [2^53], rounded beyond.  Numbers that are not
    integers (a [maxCount] of 2.5) are outside the embedding.  The period of
    the interval (1000 ms) is not modelled; a firing of the interval is an
    event that may happen at any moment, and several firings may be
    processed before React renders ([Batch]). *)

From Stdlib Require Import ZArith Lia String.
From stdpp Require Import base option list gmap.

Local Open Scope Z_scope.

(** ** State updates

    What is handed to [setCountLeft] or [this.setState]: either the next
    state itself, or a function that computes it from the state that is
    current when the update is processed. *)

Inductive Update (S : Type) : Type :=
  | Replace (s : S)
  | Updater (f : S -> S).

Arguments Replace {S} s.
Arguments Updater {S} f.

Definition apply_update {S : Type} (u : Update S) (s : S) : S :=
  match u with
  | Replace s' => s'
  | Updater f => f s
  end.

(** Updates queued before the next render are processed in the order in
    which they were queued. *)
Fixpoint process_queue {S : Type} (q : list (Update S)) (s : S) : S :=
  match q with
  | [] => s
  | u :: q' => process_queue q' (apply_update u s)
  end.

(** How a JavaScript call completes: with a value, or by throwing. *)
Inductive Completion (A : Type) : Type :=
  | Normal (a : A)
  | Throw (name : string).

Arguments Normal {A} a.
Arguments Throw {A} name.

(** ** Numbers

    The counter is a JavaScript [number], a binary64 float.  On the
    integers that are binary64 values, [c - 1] is computed exactly while
    the result is one of them, that is for [-2^53 < c <= 2^53]; from
    [2^54] on in absolute value the result rounds back to [c]; in between,
    where the binary64 values are the even integers, [c - 1] lies halfway
    between [c - 2] and [c] and is rounded to the one whose significand is
    even.  (The integers that are not binary64 values, such as [2^53 + 1],
    never occur as a [number]; [minus_one] is total on [Z] all the same.) *)

Module Number.

Definition two53 : Z := Eval cbv in 2 ^ 53.
Definition two54 : Z := Eval cbv in 2 ^ 54.

(** [c - 1] in binary64, for an integer [c]. *)
Definition minus_one (c : Z) : Z :=
  if (- two53 <? c) && (c <=? two53) then c - 1
  else if two54 <=? Z.abs c then c
  else if Z.even ((Z.abs c - two53) / 2) then c
  else c - 2.

(** The integers from which [c - 1] is computed exactly. *)
Definition exact (c : Z) : Prop := - two53 < c <= two53.

End Number.

(** What can ask for an update of the state before the next render: a
    firing of the interval with the given identifier, or a click on the
    reset button. *)
Inductive Trigger : Type :=
  | Firing (id : positive)
  | Resetting.

(** ** The host's repeating timers

    [setInterval] registers a callback and returns a fresh identifier, an
    integer greater than zero; [clearInterval] removes the entry with that
    identifier, and does nothing if there is none.  When the host comes to
    run the task of a firing it looks the identifier up again: the callback
    runs only if the timer is still registered ([task]).  [clear_calls]
    records every call of [clearInterval], oldest first. *)

Module Host.
Section host.
Context {C : Type}.

Record t : Type := Mk {
  next_id : positive;
  timers : gmap positive C;
  clear_calls : list positive
}.

Definition empty : t := Mk 1%positive ∅ [].

Definition setInterval (callback : C) (h : t) : positive * t :=
  (next_id h,
   Mk (Pos.succ (next_id h)) (<[next_id h := callback]> (timers h)) (clear_calls h)).

Definition clearInterval (id : positive) (h : t) : t :=
  Mk (next_id h) (delete id (timers h)) (clear_calls h ++ [id]).

Definition task (id : positive) (h : t) : option C := timers h !! id.

End host.
Arguments t : clear implicits.
End Host.

(** ** The hook-based timers

    [Timer] of Timer.tsx (first half) and [useTimer] have the same state,
    the same [tick] and [reset] and the same two effects; they differ in the
    dependency array of the boundary effect. *)

Module Hooks.

Inductive Deps : Type :=
  | EveryRender   (* Timer.tsx: useEffect(() => {...}) *)
  | OnChange.     (* use-timer.ts: useEffect(() => {...}, [countLeft, maxCount]) *)

Record TimerProps : Type := { props_maxCount : option Z }.

(** [function Timer({ maxCount = 60 }: TimerProps)] *)
Definition Timer_maxCount (p : TimerProps) : Z := default 60 (props_maxCount p).

(** What the functions created by one render see: the argument
    [maxCount] and the constant [countLeft] of that render. *)
Record Closure : Type := { maxCount : Z; countLeft : Z }.

(** [const [countLeft, setCountLeft] = useState(maxCount)] on the first
    render. *)
Definition useState_init (maxCount : Z) : Closure :=
  {| maxCount := maxCount; countLeft := maxCount |}.

(** The first render as a call: the body has no [throw]. *)
Definition first_render (maxCount : Z) : Completion Closure :=
  Normal (useState_init maxCount).

(** [function tick() { setCountLeft((c) => c - 1); }] *)
Definition tick (r : Closure) : Update Z := Updater (fun c => Number.minus_one c).

(** [function reset() { setCountLeft(maxCount); }] *)
Definition reset (r : Closure) : Update Z := Replace (maxCount r).

(** [if (countLeft === 0) { setCountLeft(maxCount); }] *)
Definition boundary_effect (r : Closure) : list (Update Z) :=
  if countLeft r =? 0 then [Replace (maxCount r)] else [].

(** Whether the boundary effect runs after a render, given the closure of
    the previous render ([None] on mount). *)
Definition effect_runs (deps : Deps) (prev : option Closure) (r : Closure) : bool :=
  match deps, prev with
  | EveryRender, _ => true
  | OnChange, None => true
  | OnChange, Some p =>
      negb ((countLeft p =? countLeft r) && (maxCount p =? maxCount r))
  end.

(** One render with argument [m] and state [c], followed by the boundary
    effect; when the effect changes the state the component renders
    again.  An update to the value the state already has does not cause a
    render.  [shown] collects every value of [countLeft] put on the
    screen, oldest first. *)
Fixpoint render (deps : Deps) (fuel : nat) (prev : option Closure) (m c : Z)
    (shown : list Z) : option (Closure * list Z) :=
  match fuel with
  | O => None
  | S fuel' =>
      let r := {| maxCount := m; countLeft := c |} in
      let shown' := shown ++ [c] in
      let q := if effect_runs deps prev r then boundary_effect r else [] in
      let c' := process_queue q c in
      if c' =? c then Some (r, shown')
      else render deps fuel' (Some r) m c' shown'
  end.

(** A mounted component together with the host. [latest] is the closure
    of the last render, whose [reset] the button holds; [timerId] is the
    constant captured by the cleanup of the interval effect. *)
Record World : Type := {
  host : Host.t (Update Z);
  latest : Closure;
  shown : list Z;
  timerId : positive
}.

(** Mounting: first render, then
    [const timerId = setInterval(tick, 1000)] and the boundary effect. *)
Definition mount (deps : Deps) (fuel : nat) (m : Z) (h : Host.t (Update Z))
    : option World :=
  let r0 := useState_init m in
  let '(id, h') := Host.setInterval (tick r0) h in
  match render deps fuel None m (countLeft r0) [] with
  | Some (r, sh) => Some {| host := h'; latest := r; shown := sh; timerId := id |}
  | None => None
  end.

(** The world that mounting produces (see [mount_any] below). *)
Definition mounted (m : Z) (h : Host.t (Update Z)) : World :=
  {| host := (Host.setInterval (tick (useState_init m)) h).2;
     latest := useState_init m;
     shown := [m];
     timerId := (Host.setInterval (tick (useState_init m)) h).1 |}.

(** [<Timer />] and [<Timer maxCount={m} />]. *)
Definition mount_Timer (deps : Deps) (fuel : nat) (p : TimerProps)
    (h : Host.t (Update Z)) : option World :=
  mount deps fuel (Timer_maxCount p) h.

(** Processing queued updates of the state, then rendering if the state
    changed. *)
Definition flush (deps : Deps) (fuel : nat) (q : list (Update Z)) (w : World)
    : option World :=
  let c := countLeft (latest w) in
  let c' := process_queue q c in
  if c' =? c then Some w
  else
    match render deps fuel (Some (latest w)) (maxCount (latest w)) c' (shown w) with
    | Some (r, sh) =>
        Some {| host := host w; latest := r; shown := sh; timerId := timerId w |}
    | None => None
    end.

(** [return () => clearInterval(timerId)] *)
Definition cleanup (w : World) : World :=
  {| host := Host.clearInterval (timerId w) (host w);
     latest := latest w; shown := shown w; timerId := timerId w |}.

(** The updates that a trigger puts in the queue: the registered callback
    of a firing (nothing if the timer is no longer registered), or the
    [reset] that the button holds. *)
Definition queued (w : World) (t : Trigger) : list (Update Z) :=
  match t with
  | Firing id =>
      match Host.task id (host w) with
      | Some callback => [callback]
      | None => []
      end
  | Resetting => [reset (latest w)]
  end.

Inductive Event : Type :=
  | Fire (id : positive)   (* the host runs the task of a firing of timer id *)
  | Click                  (* onClick={reset} *)
  | Rerender (m : Z)       (* the parent renders the component with maxCount m *)
  | Unmount                (* the cleanup of the interval effect runs *)
  | Batch (ts : list Trigger).
                           (* several firings and clicks are processed before
                              React renders: their updates share one render *)

Definition step (deps : Deps) (fuel : nat) (e : Event) (w : World) : option World :=
  match e with
  | Fire id =>
      match Host.task id (host w) with
      | Some callback => flush deps fuel [callback] w
      | None => Some w
      end
  | Click => flush deps fuel [reset (latest w)] w
  | Batch ts => flush deps fuel (flat_map (queued w) ts) w
  | Rerender m =>
      match render deps fuel (Some (latest w)) m (countLeft (latest w)) (shown w) with
      | Some (r, sh) =>
          Some {| host := host w; latest := r; shown := sh; timerId := timerId w |}
      | None => None
      end
  | Unmount => Some (cleanup w)
  end.

Fixpoint run (deps : Deps) (fuel : nat) (es : list Event) (w : World) : option World :=
  match es with
  | [] => Some w
  | e :: es' =>
      match step deps fuel e w with
      | Some w' => run deps fuel es' w'
      | None => None
      end
  end.

(** Events that leave the configuration alone. *)
Definition keeps_maxCount (e : Event) : bool :=
  match e with
  | Rerender _ => false
  | _ => true
  end.

(** Events that leave the configuration alone and are rendered one by
    one: no two updates share a render. *)
Definition one_by_one (e : Event) : bool :=
  match e with
  | Rerender _ => false
  | Batch _ => false
  | _ => true
  end.

End Hooks.

(** ** The class-based timer (Timer.tsx, second half) *)

Module ClassTimer.

Record Props : Type := { maxCount : option Z }.

Record State : Type := { countLeft : Z }.

(** The instance: [this.props], [this.state] and the two fields
    [timerId] (initially [null]) and [initialCount]. *)
Record Timer : Type := {
  props : Props;
  state : State;
  timerId : option positive;
  initialCount : Z
}.

Definition set_state (s : State) (this : Timer) : Timer :=
  {| props := props this; state := s; timerId := timerId this;
     initialCount := initialCount this |}.

Definition set_props (p : Props) (this : Timer) : Timer :=
  {| props := p; state := state this; timerId := timerId this;
     initialCount := initialCount this |}.

Definition set_timerId (id : option positive) (this : Timer) : Timer :=
  {| props := props this; state := state this; timerId := id;
     initialCount := initialCount this |}.

(** [this.initialCount = this.props.maxCount ?? 60;]
    [this.state = { countLeft: this.initialCount };] *)
Definition constructor (p : Props) : Timer :=
  let initialCount := default 60 (maxCount p) in
  {| props := p;
     state := {| countLeft := initialCount |};
     timerId := None;
     initialCount := initialCount |}.

(** [new Timer(props)] as a call: the constructor has no [throw]. *)
Definition new_Timer (p : Props) : Completion Timer := Normal (constructor p).

(** [this.setState((state) => ({ ...state, countLeft: state.countLeft - 1 }))] *)
Definition tick (this : Timer) : Update State :=
  Updater (fun state => {| countLeft := Number.minus_one (countLeft state) |}).

(** [this.setState({ countLeft: this.initialCount })] *)
Definition reset (this : Timer) : Update State :=
  Replace {| countLeft := initialCount this |}.

(** [this.timerId = setInterval(this.tick, 1000)] *)
Definition componentDidMount (this : Timer) (h : Host.t (Update State))
    : Timer * Host.t (Update State) :=
  let '(id, h') := Host.setInterval (tick this) h in
  (set_timerId (Some id) this, h').

(** [if (this.state.countLeft === 0) { this.reset(); }] *)
Definition componentDidUpdate (this : Timer) : option (Update State) :=
  if countLeft (state this) =? 0 then Some (reset this) else None.

(** [if (this.timerId) { clearInterval(this.timerId); }]: an identifier
    is greater than zero, hence truthy; [null] is not. *)
Definition componentWillUnmount (this : Timer) (h : Host.t (Update State))
    : Host.t (Update State) :=
  match timerId this with
  | Some id => Host.clearInterval id h
  | None => h
  end.

(** [this.setState(u)]: the state is updated, the component renders, and
    [componentDidUpdate] runs; its [reset] is again a [setState]. A class
    component renders after every [setState]. *)
Fixpoint setState (fuel : nat) (u : Update State) (this : Timer) (shown : list Z)
    : option (Timer * list Z) :=
  match fuel with
  | O => None
  | S fuel' =>
      let this' := set_state (apply_update u (state this)) this in
      let shown' := shown ++ [countLeft (state this')] in
      match componentDidUpdate this' with
      | Some u' => setState fuel' u' this' shown'
      | None => Some (this', shown')
      end
  end.

Record World : Type := {
  host : Host.t (Update State);
  this : Timer;
  shown : list Z
}.

Definition with_this (w : World) (r : option (Timer * list Z)) : option World :=
  match r with
  | Some (t, sh) => Some {| host := host w; this := t; shown := sh |}
  | None => None
  end.

(** Mounting: constructor, first render, [componentDidMount]. *)
Definition mount (p : Props) (h : Host.t (Update State)) : World :=
  let t := constructor p in
  let '(t', h') := componentDidMount t h in
  {| host := h'; this := t'; shown := [countLeft (state t)] |}.

Definition unmount (w : World) : World :=
  {| host := componentWillUnmount (this w) (host w); this := this w; shown := shown w |}.

(** The updates that a trigger hands to [setState]. *)
Definition queued (w : World) (t : Trigger) : list (Update State) :=
  match t with
  | Firing id =>
      match Host.task id (host w) with
      | Some callback => [callback]
      | None => []
      end
  | Resetting => [reset (this w)]
  end.

Inductive Event : Type :=
  | Fire (id : positive)   (* the host runs the task of a firing of timer id *)
  | Click                  (* onClick={this.reset} *)
  | Rerender (p : Props)   (* the parent renders the component with props p *)
  | Unmount                (* componentWillUnmount is called *)
  | Batch (ts : list Trigger).
                           (* several firings and clicks are processed before
                              React renders: their updates share one render *)

(** Several [setState] calls before one render: the updates are applied
    in order to the state, then the component renders once and
    [componentDidUpdate] runs, which is what [setState] does with the one
    updater that applies the whole queue.  Without any update there is no
    render. *)
Definition setState_queue (fuel : nat) (q : list (Update State)) (w : World)
    : option World :=
  match q with
  | [] => Some w
  | _ :: _ => with_this w (setState fuel (Updater (process_queue q)) (this w) (shown w))
  end.

Definition step (fuel : nat) (e : Event) (w : World) : option World :=
  match e with
  | Batch ts => setState_queue fuel (flat_map (queued w) ts) w
  | Fire id =>
      match Host.task id (host w) with
      | Some callback => with_this w (setState fuel callback (this w) (shown w))
      | None => Some w
      end
  | Click => with_this w (setState fuel (reset (this w)) (this w) (shown w))
  | Rerender p =>
      let t := set_props p (this w) in
      let sh := shown w ++ [countLeft (state t)] in
      match componentDidUpdate t with
      | Some u => with_this w (setState fuel u t sh)
      | None => Some {| host := host w; this := t; shown := sh |}
      end
  | Unmount => Some (unmount w)
  end.

Fixpoint run (fuel : nat) (es : list Event) (w : World) : option World :=
  match es with
  | [] => Some w
  | e :: es' =>
      match step fuel e w with
      | Some w' => run fuel es' w'
      | None => None
      end
  end.

(** Events that are rendered one by one: no two updates share a render. *)
Definition one_by_one (e : Event) : bool :=
  match e with
  | Batch _ => false
  | _ => true
  end.

End ClassTimer.

(** ** Closed forms of the render loops *)

(** The state once the boundary effect has run on a new value [c'] of the
    state cell of a hook-based timer whose argument is [m]. *)
Definition after_effect (m c' : Z) : Z := if c' =? 0 then m else c'.

(** What is put on the screen while that happens. *)
Definition frames (m c' : Z) : list Z :=
  if (c' =? 0) && negb (m =? 0) then [c'; m] else [c'].

(** A hook-based world whose state cell has been changed to [c']. *)
Definition changed_to (c' : Z) (w : Hooks.World) : Hooks.World :=
  {| Hooks.host := Hooks.host w;
     Hooks.latest := {| Hooks.maxCount := Hooks.maxCount (Hooks.latest w);
                        Hooks.countLeft := after_effect (Hooks.maxCount (Hooks.latest w)) c' |};
     Hooks.shown := Hooks.shown w ++ frames (Hooks.maxCount (Hooks.latest w)) c';
     Hooks.timerId := Hooks.timerId w |}.

(** The hook-based world after the updates [q] have been processed. *)
Definition flushed (q : list (Update Z)) (w : Hooks.World) : Hooks.World :=
  let c := Hooks.countLeft (Hooks.latest w) in
  let c' := process_queue q c in
  if c' =? c then w else changed_to c' w.

(** The timer of a hook-based world is registered with [tick]. *)
Definition ticking (w : Hooks.World) : Prop :=
  Host.task (Hooks.timerId w) (Hooks.host w) = Some (Hooks.tick (Hooks.latest w)).

(** Every registered callback of the host is [tick]. *)
Definition only_ticks (h : Host.t (Update Z)) : Prop :=
  forall id callback, Host.task id h = Some callback ->
    callback = Updater (fun c => Number.minus_one c).

Definition class_ticking (id : positive) (w : ClassTimer.World) : Prop :=
  Host.task id (ClassTimer.host w) = Some (ClassTimer.tick (ClassTimer.this w)).

(** The counter values [c - 1], [c - 2], ..., [c - n]. *)
Fixpoint countdown (n : nat) (c : Z) : list Z :=
  match n with
  | O => []
  | S n' => (c - 1) :: countdown n' (c - 1)
  end.


(** A hook-based world on which the boundary effect has nothing left to
    do: the counter is zero only if [maxCount] is zero as well. *)
Definition settled (w : Hooks.World) : Prop :=
  Hooks.countLeft (Hooks.latest w) = 0 -> Hooks.maxCount (Hooks.latest w) = 0.

(** How many times zero has been put on the screen. *)
Definition zeros (l : list Z) : nat := count_occ Z.eq_dec l 0.

(** A class-based world whose counter has been changed to [c'], for an
    [initialCount] other than zero. *)
Definition class_changed_to (c' : Z) (w : ClassTimer.World) : ClassTimer.World :=
  {| ClassTimer.host := ClassTimer.host w;
     ClassTimer.this :=
       ClassTimer.set_state
         {| ClassTimer.countLeft :=
              after_effect (ClassTimer.initialCount (ClassTimer.this w)) c' |}
         (ClassTimer.this w);
     ClassTimer.shown :=
       ClassTimer.shown w ++ frames (ClassTimer.initialCount (ClassTimer.this w)) c' |}.

(** The identifier that the next [setInterval] will hand out is not in use. *)
Definition next_id_unused {C : Type} (h : Host.t C) : Prop :=
  Host.timers h !! Host.next_id h = None.

(** Every registered callback of the host is the [tick] of the class. *)
Definition class_only_ticks (h : Host.t (Update ClassTimer.State)) : Prop :=
  forall id callback, Host.task id h = Some callback ->
    callback
    = Updater (fun state =>
                 {| ClassTimer.countLeft := Number.minus_one (ClassTimer.countLeft state) |}).


(** The event of the class-based timer that corresponds to an event of a
    hook-based timer. *)
Definition to_class_event (e : Hooks.Event) : ClassTimer.Event :=
  match e with
  | Hooks.Fire id => ClassTimer.Fire id
  | Hooks.Click => ClassTimer.Click
  | Hooks.Rerender m => ClassTimer.Rerender {| ClassTimer.maxCount := Some m |}
  | Hooks.Unmount => ClassTimer.Unmount
  | Hooks.Batch ts => ClassTimer.Batch ts
  end.

(** A hook-based and a class-based timer with the same cycle length [m],
    the same counter, the same handle, and the same identifiers registered
    with their hosts. *)
Definition same_counter (m : Z) (w : Hooks.World) (cw : ClassTimer.World) : Prop :=
  Hooks.maxCount (Hooks.latest w) = m /\
  ClassTimer.initialCount (ClassTimer.this cw) = m /\
  Hooks.countLeft (Hooks.latest w) = ClassTimer.countLeft (ClassTimer.state (ClassTimer.this cw)) /\
  ClassTimer.timerId (ClassTimer.this cw) = Some (Hooks.timerId w) /\
  only_ticks (Hooks.host w) /\
  class_only_ticks (ClassTimer.host cw) /\
  (forall id, Host.task id (Hooks.host w) = None <-> Host.task id (ClassTimer.host cw) = None) /\
  Hooks.countLeft (Hooks.latest w) <> 0.

(** ** Lemmas on updates and on the host *)

Lemma process_queue_app {S : Type} (q1 q2 : list (Update S)) (s : S) :
  process_queue (q1 ++ q2) s = process_queue q2 (process_queue q1 s).
Proof.
  revert s. induction q1 as [|u q1 IH]; intros s; simpl; [reflexivity|apply IH].
Qed.

(** *** The subtraction of binary64 *)

Lemma minus_one_exact (c : Z) : Number.exact c -> Number.minus_one c = c - 1.
Proof.
  unfold Number.exact, Number.minus_one. intros [Hlo Hhi].
  destruct (Z.ltb_spec (- Number.two53) c); [|lia].
  destruct (Z.leb_spec c Number.two53); [reflexivity|lia].
Qed.




Lemma minus_one_stays_at_minus_two53 :
  Number.minus_one (- Number.two53) = - Number.two53.
Proof. reflexivity. Qed.



Lemma task_setInterval {C : Type} (cb : C) (h : Host.t C) :
  Host.task (Host.setInterval cb h).1 (Host.setInterval cb h).2 = Some cb.
Proof. unfold Host.task; simpl. apply lookup_insert_eq. Qed.

Lemma task_clearInterval {C : Type} (id : positive) (h : Host.t C) :
  Host.task id (Host.clearInterval id h) = None.
Proof. unfold Host.task; simpl. apply lookup_delete_eq. Qed.

Lemma timers_clearInterval_twice {C : Type} (id : positive) (h : Host.t C) :
  Host.timers (Host.clearInterval id (Host.clearInterval id h))
  = Host.timers (Host.clearInterval id h).
Proof.
  simpl. apply delete_id. apply lookup_delete_eq.
Qed.

(** ** Lemmas on the hook-based timers *)

Section hooks_lemmas.
Import Hooks.
Variable deps : Deps.

Lemma effect_runs_changed (p r : Closure) :
  countLeft p <> countLeft r -> effect_runs deps (Some p) r = true.
Proof.
  intros Hne. destruct deps; simpl; [reflexivity|].
  apply Z.eqb_neq in Hne. rewrite Hne. reflexivity.
Qed.

Lemma render_nonzero (fuel : nat) (prev : option Closure) (m c : Z) (sh : list Z) :
  c <> 0 ->
  render deps (S fuel) prev m c sh
  = Some ({| maxCount := m; countLeft := c |}, sh ++ [c]).
Proof.
  intros Hc. simpl. unfold boundary_effect. simpl.
  apply Z.eqb_neq in Hc. rewrite Hc.
  destruct (effect_runs deps prev _); simpl; rewrite Z.eqb_refl; reflexivity.
Qed.

Lemma render_changed (fuel : nat) (p : Closure) (m c : Z) (sh : list Z) :
  countLeft p <> c ->
  render deps (S (S fuel)) (Some p) m c sh
  = Some ({| maxCount := m; countLeft := after_effect m c |}, sh ++ frames m c).
Proof.
  intros Hne. unfold after_effect, frames.
  destruct (Z.eqb_spec c 0) as [->|Hc].
  - cbn [render]. rewrite effect_runs_changed by (simpl; exact Hne).
    unfold boundary_effect. cbn [countLeft maxCount Z.eqb process_queue apply_update].
    destruct (Z.eqb_spec m 0) as [->|Hm].
    + reflexivity.
    + rewrite effect_runs_changed by (simpl; lia).
      cbn [countLeft maxCount process_queue negb andb]. rewrite Z.eqb_refl.
      rewrite <- app_assoc. reflexivity.
  - rewrite render_nonzero by exact Hc. reflexivity.
Qed.

Lemma flush_flushed (fuel : nat) (q : list (Update Z)) (w : World) :
  flush deps (S (S fuel)) q w = Some (flushed q w).
Proof.
  unfold flush, flushed.
  destruct (Z.eqb_spec (process_queue q (countLeft (latest w))) (countLeft (latest w)))
    as [Heq|Hne]; [reflexivity|].
  rewrite render_changed by (intros E; apply Hne; symmetry; exact E).
  reflexivity.
Qed.

End hooks_lemmas.

Section hooks_steps.
Import Hooks.
Variable deps : Deps.

Lemma render_total (fuel : nat) (prev : option Closure) (m c : Z) (sh : list Z) :
  exists r sh',
    render deps (S (S fuel)) prev m c sh = Some (r, sh') /\
    maxCount r = m /\
    (countLeft r = c \/ (c = 0 /\ countLeft r = m)).
Proof.
  destruct (Z.eqb_spec c 0) as [->|Hc].
  - cbn [render]. unfold boundary_effect. cbn [countLeft maxCount Z.eqb].
    destruct (effect_runs deps prev _).
    + cbn [process_queue apply_update].
      destruct (Z.eqb_spec m 0) as [->|Hm].
      * eexists _, _. split; [reflexivity|]. simpl. auto.
      * rewrite effect_runs_changed by (simpl; lia).
        cbn [countLeft maxCount process_queue]. rewrite Z.eqb_refl.
        eexists _, _. split; [reflexivity|]. simpl. auto.
    + cbn [process_queue]. rewrite Z.eqb_refl.
      eexists _, _. split; [reflexivity|]. simpl. auto.
  - rewrite render_nonzero by exact Hc.
    eexists _, _. split; [reflexivity|]. simpl. auto.
Qed.

Lemma changed_to_tick (w : World) :
  Number.exact (countLeft (latest w)) ->
  flushed [tick (latest w)] w = changed_to (countLeft (latest w) - 1) w.
Proof.
  intros Hx. unfold flushed. cbn [process_queue apply_update tick].
  rewrite minus_one_exact by exact Hx.
  destruct (Z.eqb_spec (countLeft (latest w) - 1) (countLeft (latest w))); [lia|reflexivity].
Qed.

Lemma step_Fire (fuel : nat) (w : World) :
  ticking w ->
  Number.exact (countLeft (latest w)) ->
  step deps (S (S fuel)) (Fire (timerId w)) w
  = Some (changed_to (countLeft (latest w) - 1) w).
Proof.
  intros Ht Hx. unfold step. rewrite Ht. rewrite flush_flushed.
  rewrite changed_to_tick by exact Hx. reflexivity.
Qed.

Lemma step_Click (fuel : nat) (w : World) :
  step deps (S (S fuel)) Click w = Some (flushed [reset (latest w)] w).
Proof. unfold step. apply flush_flushed. Qed.

Lemma ticking_changed_to (c' : Z) (w : World) :
  ticking w -> ticking (changed_to c' w).
Proof. intros Ht. exact Ht. Qed.

Lemma countLeft_reset (w : World) :
  countLeft (latest (flushed [reset (latest w)] w)) = maxCount (latest w).
Proof.
  unfold flushed. cbn [process_queue apply_update reset].
  destruct (Z.eqb_spec (maxCount (latest w)) (countLeft (latest w))) as [E|E].
  - symmetry. exact E.
  - cbn [changed_to latest countLeft]. unfold after_effect.
    destruct (Z.eqb_spec (maxCount (latest w)) 0) as [E0|E0]; reflexivity.
Qed.

Lemma maxCount_flushed (q : list (Update Z)) (w : World) :
  maxCount (latest (flushed q w)) = maxCount (latest w).
Proof.
  unfold flushed. destruct (_ =? _); reflexivity.
Qed.

Lemma mount_positive (fuel : nat) (m : Z) (h : Host.t (Update Z)) :
  m <> 0 ->
  mount deps (S fuel) m h = Some (mounted m h).
Proof.
  intros Hm. unfold mount. cbn [Host.setInterval useState_init countLeft].
  rewrite render_nonzero by exact Hm. reflexivity.
Qed.

Lemma mount_zero (fuel : nat) (h : Host.t (Update Z)) :
  mount deps (S fuel) 0 h = Some (mounted 0 h).
Proof.
  unfold mount. cbn [Host.setInterval useState_init countLeft render].
  destruct deps; reflexivity.
Qed.

Lemma mount_any (fuel : nat) (m : Z) (h : Host.t (Update Z)) :
  mount deps (S fuel) m h = Some (mounted m h).
Proof.
  destruct (Z.eq_dec m 0) as [->|Hm]; [apply mount_zero|apply mount_positive; exact Hm].
Qed.

(** Ticks that do not reach zero: the boundary effect has nothing to do. *)
Lemma run_Fire_no_wrap (fuel : nat) (n : nat) (w : World) :
  ticking w ->
  (countLeft (latest w) < 0 \/ Z.of_nat n < countLeft (latest w)) ->
  countLeft (latest w) <= Number.two53 ->
  - Number.two53 <= countLeft (latest w) - Z.of_nat n ->
  exists w',
    run deps (S (S fuel)) (replicate n (Fire (timerId w))) w = Some w' /\
    host w' = host w /\ timerId w' = timerId w /\
    latest w' = {| maxCount := maxCount (latest w);
                   countLeft := countLeft (latest w) - Z.of_nat n |} /\
    shown w' = shown w ++ countdown n (countLeft (latest w)).
Proof.
  revert w. induction n as [|n IH]; intros w Ht Hc Hhi Hlo.
  - exists w. cbn [replicate run countdown]. rewrite app_nil_r.
    repeat split; try reflexivity.
    destruct (latest w); simpl; f_equal; lia.
  - cbn [replicate run].
    rewrite step_Fire by (exact Ht || (unfold Number.exact; lia)).
    set (w1 := changed_to (countLeft (latest w) - 1) w).
    assert (Hne : countLeft (latest w) - 1 <> 0) by lia.
    assert (Hl1 : latest w1 = {| maxCount := maxCount (latest w);
                                 countLeft := countLeft (latest w) - 1 |}).
    { unfold w1, changed_to, after_effect. cbn [latest].
      apply Z.eqb_neq in Hne. rewrite Hne. reflexivity. }
    assert (Hs1 : shown w1 = shown w ++ [countLeft (latest w) - 1]).
    { unfold w1, changed_to, frames. cbn [shown].
      apply Z.eqb_neq in Hne. rewrite Hne. reflexivity. }
    destruct (IH w1) as (w' & Hrun & Hh & Hid & Hl & Hs).
    { apply ticking_changed_to. exact Ht. }
    { rewrite Hl1. cbn [countLeft]. lia. }
    { rewrite Hl1. cbn [countLeft]. lia. }
    { rewrite Hl1. cbn [countLeft]. lia. }
    exists w'. change (timerId w) with (timerId w1).
    split; [exact Hrun|].
    split; [rewrite Hh; reflexivity|].
    split; [rewrite Hid; reflexivity|].
    split.
    + rewrite Hl, Hl1. cbn [maxCount countLeft]. f_equal. lia.
    + rewrite Hs, Hs1, Hl1. cbn [countLeft countdown]. rewrite <- app_assoc. reflexivity.
Qed.

End hooks_steps.

(** ** Lemmas on the class-based timer *)

Section class_lemmas.
Import ClassTimer.

Lemma setState_nonzero (fuel : nat) (u : Update State) (t : Timer) (sh : list Z) :
  countLeft (apply_update u (state t)) <> 0 ->
  setState (S fuel) u t sh
  = Some (set_state (apply_update u (state t)) t,
          sh ++ [countLeft (apply_update u (state t))]).
Proof.
  intros Hc. cbn [setState]. unfold componentDidUpdate. cbn [set_state state].
  apply Z.eqb_neq in Hc. rewrite Hc. reflexivity.
Qed.

Lemma setState_wrap (fuel : nat) (u : Update State) (t : Timer) (sh : list Z) :
  countLeft (apply_update u (state t)) = 0 ->
  initialCount t <> 0 ->
  setState (S (S fuel)) u t sh
  = Some (set_state {| countLeft := initialCount t |} t, sh ++ [0; initialCount t]).
Proof.
  intros Hc Hi. cbn [setState]. unfold componentDidUpdate.
  cbn [set_state state initialCount]. rewrite Hc. cbn [Z.eqb].
  cbn [reset initialCount apply_update countLeft].
  unfold set_state. cbn [initialCount props state timerId].
  apply Z.eqb_neq in Hi. rewrite Hi. rewrite <- app_assoc. reflexivity.
Qed.

(** With [initialCount] zero the reset of [componentDidUpdate] brings the
    counter to zero again: the updates never come to an end. *)
Lemma setState_no_end (fuel : nat) (u : Update State) (t : Timer) (sh : list Z) :
  countLeft (apply_update u (state t)) = 0 ->
  initialCount t = 0 ->
  setState fuel u t sh = None.
Proof.
  revert u t sh. induction fuel as [|fuel IH]; intros u t sh Hc Hi; [reflexivity|].
  cbn [setState]. unfold componentDidUpdate. cbn [set_state state].
  rewrite Hc. cbn [Z.eqb]. apply IH.
  - cbn [reset apply_update initialCount countLeft]. exact Hi.
  - exact Hi.
Qed.

Lemma class_run_Fire_no_wrap (fuel : nat) (n : nat) (id : positive) (w : World) :
  class_ticking id w ->
  (countLeft (state (this w)) < 0 \/ Z.of_nat n < countLeft (state (this w))) ->
  countLeft (state (this w)) <= Number.two53 ->
  - Number.two53 <= countLeft (state (this w)) - Z.of_nat n ->
  exists w',
    run (S fuel) (replicate n (Fire id)) w = Some w' /\
    host w' = host w /\
    this w' = set_state {| countLeft := countLeft (state (this w)) - Z.of_nat n |} (this w) /\
    shown w' = shown w ++ countdown n (countLeft (state (this w))).
Proof.
  revert w. induction n as [|n IH]; intros w Ht Hc Hhi Hlo.
  - exists w. cbn [replicate run countdown]. rewrite app_nil_r.
    repeat split; try reflexivity.
    destruct (this w) as [p [c] i ic]; unfold set_state; simpl; repeat f_equal; lia.
  - cbn [replicate run step]. rewrite Ht.
    assert (Hx : Number.minus_one (countLeft (state (this w)))
                 = countLeft (state (this w)) - 1)
      by (apply minus_one_exact; unfold Number.exact; lia).
    assert (Hne : countLeft (apply_update (tick (this w)) (state (this w))) <> 0)
      by (cbn [tick apply_update countLeft]; rewrite Hx; lia).
    rewrite setState_nonzero by exact Hne. cbn [with_this].
    cbn [tick apply_update countLeft]. rewrite Hx.
    set (w1 := {| host := host w;
                  this := set_state {| countLeft := countLeft (state (this w)) - 1 |} (this w);
                  shown := shown w ++ [countLeft (state (this w)) - 1] |}).
    destruct (IH w1) as (w' & Hrun & Hh & Hth & Hs).
    { exact Ht. }
    { cbn [w1 this set_state state countLeft]. lia. }
    { cbn [w1 this set_state state countLeft]. lia. }
    { cbn [w1 this set_state state countLeft]. lia. }
    exists w'. split; [exact Hrun|].
    split; [rewrite Hh; reflexivity|].
    split.
    + rewrite Hth. cbn [w1 this set_state state countLeft props timerId initialCount].
      unfold set_state. cbn [this state props timerId initialCount countLeft].
      do 2 f_equal. lia.
    + rewrite Hs. cbn [w1 shown this set_state state countLeft countdown].
      rewrite <- app_assoc. reflexivity.
Qed.

End class_lemmas.

(** ** Runs *)

Lemma hooks_run_app (deps : Hooks.Deps) (fuel : nat) (es1 es2 : list Hooks.Event)
    (w : Hooks.World) :
  Hooks.run deps fuel (es1 ++ es2) w
  = match Hooks.run deps fuel es1 w with
    | Some w1 => Hooks.run deps fuel es2 w1
    | None => None
    end.
Proof.
  revert w. induction es1 as [|e es1 IH]; intros w; [reflexivity|].
  cbn [app Hooks.run]. destruct (Hooks.step deps fuel e w); [apply IH|reflexivity].
Qed.

Lemma replicate_snoc {A : Type} (n : nat) (x : A) :
  replicate (S n) x = replicate n x ++ [x].
Proof.
  induction n as [|n IH]; [reflexivity|].
  cbn [replicate app] in *. f_equal. exact IH.
Qed.

Lemma ticking_mounted (m : Z) (h : Host.t (Update Z)) :
  ticking (Hooks.mounted m h).
Proof. unfold ticking, Hooks.mounted. cbn [Hooks.timerId Hooks.host]. apply task_setInterval. Qed.

Lemma class_ticking_mount (p : ClassTimer.Props) (h : Host.t (Update ClassTimer.State)) :
  class_ticking (Host.next_id h) (ClassTimer.mount p h).
Proof.
  unfold class_ticking, ClassTimer.mount, ClassTimer.componentDidMount.
  cbn [Host.setInterval ClassTimer.host]. unfold Host.task. cbn [Host.timers].
  apply lookup_insert_eq.
Qed.

Lemma closure_eta (r : Hooks.Closure) :
  {| Hooks.maxCount := Hooks.maxCount r; Hooks.countLeft := Hooks.countLeft r |} = r.
Proof. destruct r; reflexivity. Qed.

(** ** The claims *)

(** C3, as the code has it.  Cyclicity up to [2^53]: in a hook-based
    timer whose counter equals a positive integer [maxCount] not above
    [2^53] and whose interval is registered, [maxCount] firings of the
    interval, each rendered and followed by the boundary effect before the
    next, bring the counter back to [maxCount]. *)
Theorem C3_cyclicity (deps : Hooks.Deps) (fuel : nat) (w : Hooks.World) :
  (2 <= fuel)%nat ->
  ticking w ->
  0 < Hooks.maxCount (Hooks.latest w) <= Number.two53 ->
  Hooks.countLeft (Hooks.latest w) = Hooks.maxCount (Hooks.latest w) ->
  exists w',
    Hooks.run deps fuel
      (replicate (Z.to_nat (Hooks.maxCount (Hooks.latest w))) (Hooks.Fire (Hooks.timerId w))) w
    = Some w' /\
    Hooks.latest w' = Hooks.latest w.
Proof.
  intros Hfuel Ht Hm Hc.
  destruct fuel as [|[|fuel]]; try lia.
  set (m := Hooks.maxCount (Hooks.latest w)) in *.
  destruct (Z.to_nat m) as [|k] eqn:Hk; [lia|].
  rewrite replicate_snoc, hooks_run_app.
  assert (H53 : 0 < Number.two53) by reflexivity.
  destruct (run_Fire_no_wrap deps fuel k w Ht) as (w1 & Hrun & Hh & Hid & Hl & Hs);
    try lia.
  rewrite Hrun.
  assert (Ht1 : ticking w1).
  { unfold ticking. rewrite Hh, Hid. exact Ht. }
  cbn [Hooks.run]. rewrite <- Hid.
  rewrite step_Fire
    by (exact Ht1 || (rewrite Hl; unfold Number.exact; cbn [Hooks.countLeft]; lia)).
  eexists. split; [reflexivity|].
  cbn [changed_to Hooks.latest]. rewrite Hl. cbn [Hooks.maxCount Hooks.countLeft].
  fold m. replace (Hooks.countLeft (Hooks.latest w) - Z.of_nat k - 1) with 0 by lia.
  unfold after_effect. cbn [Z.eqb].
  rewrite <- (closure_eta (Hooks.latest w)). fold m. rewrite Hc. reflexivity.
Qed.

Lemma C3_cyclicity_witness :
  exists w',
    Hooks.run Hooks.OnChange 2 (replicate (Z.to_nat 3) (Hooks.Fire 1%positive))
      (Hooks.mounted 3 Host.empty) = Some w' /\
    Hooks.latest w' = Hooks.latest (Hooks.mounted 3 Host.empty).
Proof.
  apply (C3_cyclicity Hooks.OnChange 2 (Hooks.mounted 3 Host.empty)).
  - lia.
  - apply ticking_mounted.
  - split; reflexivity || (intros H; discriminate H).
  - reflexivity.
Defined.









(** C9. Without an explicit [maxCount] the configuration is 60 and the
    counter starts at 60: through the default parameter of the function
    components [Timer] and through [?? 60] in the constructor of the class. *)
Theorem C9_default_is_60 (deps : Hooks.Deps) (fuel : nat)
    (h : Host.t (Update Z)) (ch : Host.t (Update ClassTimer.State)) :
  (1 <= fuel)%nat ->
  Hooks.Timer_maxCount {| Hooks.props_maxCount := None |} = 60 /\
  (exists w,
      Hooks.mount_Timer deps fuel {| Hooks.props_maxCount := None |} h = Some w /\
      Hooks.latest w = {| Hooks.maxCount := 60; Hooks.countLeft := 60 |} /\
      Hooks.shown w = [60]) /\
  ClassTimer.initialCount (ClassTimer.constructor {| ClassTimer.maxCount := None |}) = 60 /\
  ClassTimer.state (ClassTimer.this (ClassTimer.mount {| ClassTimer.maxCount := None |} ch))
  = {| ClassTimer.countLeft := 60 |} /\
  ClassTimer.shown (ClassTimer.mount {| ClassTimer.maxCount := None |} ch) = [60].
Proof.
  intros Hfuel. destruct fuel as [|fuel]; [lia|].
  split; [reflexivity|].
  split.
  { unfold Hooks.mount_Timer. rewrite mount_any. eexists. split; [reflexivity|].
    split; reflexivity. }
  repeat split; reflexivity.
Qed.

Lemma C9_default_is_60_witness :
  exists w,
    Hooks.mount_Timer Hooks.EveryRender 1 {| Hooks.props_maxCount := None |} Host.empty
    = Some w /\
    Hooks.latest w = {| Hooks.maxCount := 60; Hooks.countLeft := 60 |} /\
    Hooks.shown w = [60].
Proof.
  apply (C9_default_is_60 Hooks.EveryRender 1 Host.empty Host.empty). lia.
Defined.

(** C8. Reset idempotence in the hook-based timers: in every state,
    [reset] leaves the counter equal to [maxCount], and a second [reset]
    right after it changes nothing at all. *)
Theorem C8_reset_idempotent (deps : Hooks.Deps) (fuel : nat) (w : Hooks.World) :
  (2 <= fuel)%nat ->
  exists w1,
    Hooks.step deps fuel Hooks.Click w = Some w1 /\
    Hooks.countLeft (Hooks.latest w1) = Hooks.maxCount (Hooks.latest w) /\
    Hooks.step deps fuel Hooks.Click w1 = Some w1 /\
    Hooks.run deps fuel [Hooks.Click; Hooks.Click] w = Hooks.run deps fuel [Hooks.Click] w.
Proof.
  intros Hfuel. destruct fuel as [|[|fuel]]; try lia.
  set (w1 := flushed [Hooks.reset (Hooks.latest w)] w).
  assert (H1 : Hooks.step deps (S (S fuel)) Hooks.Click w = Some w1)
    by apply step_Click.
  assert (Hc : Hooks.countLeft (Hooks.latest w1) = Hooks.maxCount (Hooks.latest w))
    by apply countLeft_reset.
  assert (H2 : Hooks.step deps (S (S fuel)) Hooks.Click w1 = Some w1).
  { rewrite step_Click. f_equal. unfold flushed at 1.
    cbn [process_queue apply_update Hooks.reset].
    unfold w1 at 1 2. rewrite maxCount_flushed. fold w1. rewrite Hc.
    rewrite Z.eqb_refl. reflexivity. }
  exists w1. split; [exact H1|]. split; [exact Hc|]. split; [exact H2|].
  cbn [Hooks.run]. rewrite H1, H2. reflexivity.
Qed.

Lemma C8_reset_idempotent_witness :
  exists w1,
    Hooks.step Hooks.OnChange 2 Hooks.Click (changed_to 1 (Hooks.mounted 3 Host.empty))
    = Some w1 /\
    Hooks.countLeft (Hooks.latest w1) = 3 /\
    Hooks.step Hooks.OnChange 2 Hooks.Click w1 = Some w1 /\
    Hooks.run Hooks.OnChange 2 [Hooks.Click; Hooks.Click]
      (changed_to 1 (Hooks.mounted 3 Host.empty))
    = Hooks.run Hooks.OnChange 2 [Hooks.Click] (changed_to 1 (Hooks.mounted 3 Host.empty)).
Proof.
  apply (C8_reset_idempotent Hooks.OnChange 2 (changed_to 1 (Hooks.mounted 3 Host.empty))).
  lia.
Defined.

(** ** The cycle of the hook-based timers *)

Lemma only_ticks_empty : only_ticks Host.empty.
Proof. intros id cb H. unfold Host.task in H. simpl in H. rewrite lookup_empty in H. discriminate. Qed.

Lemma only_ticks_setInterval (r : Hooks.Closure) (h : Host.t (Update Z)) :
  only_ticks h -> only_ticks (Host.setInterval (Hooks.tick r) h).2.
Proof.
  intros Hh id cb H. unfold Host.task in H. cbn [Host.setInterval snd Host.timers] in H.
  destruct (decide (Host.next_id h = id)) as [E|Hne].
  - rewrite <- E in H. rewrite lookup_insert_eq in H. injection H as <-. reflexivity.
  - rewrite lookup_insert_ne in H by exact Hne. apply (Hh id). exact H.
Qed.

Lemma only_ticks_clearInterval (id : positive) (h : Host.t (Update Z)) :
  only_ticks h -> only_ticks (Host.clearInterval id h).
Proof.
  intros Hh id' cb H. unfold Host.task in H. cbn [Host.clearInterval Host.timers] in H.
  apply lookup_delete_Some in H as [_ H]. apply (Hh id'). exact H.
Qed.








(** Firings that share a render skip the boundary rule: four firings
    processed before React renders take a counter of 3 to -1, and -1 is
    what is shown. *)
Lemma batched_firings_skip_the_wrap :
  exists w,
    Hooks.step Hooks.EveryRender 2
      (Hooks.Batch [Firing 1%positive; Firing 1%positive; Firing 1%positive; Firing 1%positive])
      (Hooks.mounted 3 Host.empty) = Some w /\
    Hooks.countLeft (Hooks.latest w) = -1 /\
    Hooks.shown w = [3; -1] /\
  exists cw,
    ClassTimer.step 2
      (ClassTimer.Batch [Firing 1%positive; Firing 1%positive; Firing 1%positive; Firing 1%positive])
      (ClassTimer.mount {| ClassTimer.maxCount := Some 3 |} Host.empty) = Some cw /\
    ClassTimer.countLeft (ClassTimer.state (ClassTimer.this cw)) = -1 /\
    ClassTimer.shown cw = [3; -1].
Proof.
  eexists. split; [reflexivity|]. split; [reflexivity|]. split; [reflexivity|].
  eexists. split; [reflexivity|]. split; reflexivity.
Qed.

(** ** The target of reset *)

Lemma class_step_Click (fuel : nat) (w : ClassTimer.World) :
  ClassTimer.initialCount (ClassTimer.this w) <> 0 ->
  ClassTimer.step (S fuel) ClassTimer.Click w
  = Some {| ClassTimer.host := ClassTimer.host w;
            ClassTimer.this :=
              ClassTimer.set_state
                {| ClassTimer.countLeft := ClassTimer.initialCount (ClassTimer.this w) |}
                (ClassTimer.this w);
            ClassTimer.shown :=
              ClassTimer.shown w ++ [ClassTimer.initialCount (ClassTimer.this w)] |}.
Proof.
  intros Hi. cbn [ClassTimer.step].
  rewrite setState_nonzero by exact Hi. reflexivity.
Qed.

Lemma class_step_Rerender (fuel : nat) (p : ClassTimer.Props) (w : ClassTimer.World) :
  ClassTimer.initialCount (ClassTimer.this w) <> 0 ->
  exists w1,
    ClassTimer.step (S fuel) (ClassTimer.Rerender p) w = Some w1 /\
    ClassTimer.props (ClassTimer.this w1) = p /\
    ClassTimer.initialCount (ClassTimer.this w1) = ClassTimer.initialCount (ClassTimer.this w).
Proof.
  intros Hi. cbn [ClassTimer.step]. unfold ClassTimer.componentDidUpdate.
  destruct (_ =? _).
  - rewrite setState_nonzero by exact Hi. eexists. split; [reflexivity|].
    split; reflexivity.
  - eexists. split; [reflexivity|]. split; reflexivity.
Qed.

(** C2, as the code has it.  In the hook-based timers [reset] sets the
    counter to the [maxCount] of the latest render, so after the parent
    has passed a new value the next reset uses the new value.  In the
    class-based timer [reset] sets the counter to [initialCount], which
    the constructor took from the props; props passed later change
    [this.props] and leave [initialCount] and the target of [reset] as
    they were. *)
Theorem C2_reset_target (deps : Hooks.Deps) (fuel : nat) (w : Hooks.World) (m' : Z)
    (cw : ClassTimer.World) (p p' : ClassTimer.Props) :
  (2 <= fuel)%nat ->
  ClassTimer.initialCount (ClassTimer.this cw) <> 0 ->
  (exists w1 w2,
      Hooks.step deps fuel (Hooks.Rerender m') w = Some w1 /\
      Hooks.maxCount (Hooks.latest w1) = m' /\
      Hooks.step deps fuel Hooks.Click w1 = Some w2 /\
      Hooks.countLeft (Hooks.latest w2) = m') /\
  ClassTimer.initialCount (ClassTimer.constructor p) = default 60 (ClassTimer.maxCount p) /\
  (exists cw1 cw2,
      ClassTimer.step fuel (ClassTimer.Rerender p') cw = Some cw1 /\
      ClassTimer.props (ClassTimer.this cw1) = p' /\
      ClassTimer.step fuel ClassTimer.Click cw1 = Some cw2 /\
      ClassTimer.countLeft (ClassTimer.state (ClassTimer.this cw2))
      = ClassTimer.initialCount (ClassTimer.this cw)).
Proof.
  intros Hfuel Hi. destruct fuel as [|[|fuel]]; try lia.
  split.
  { cbn [Hooks.step].
    destruct (render_total deps fuel (Some (Hooks.latest w)) m'
                (Hooks.countLeft (Hooks.latest w)) (Hooks.shown w))
      as (r & sh & Hr & Hmax & _).
    rewrite Hr.
    set (w1 := {| Hooks.host := Hooks.host w; Hooks.latest := r; Hooks.shown := sh;
                  Hooks.timerId := Hooks.timerId w |}).
    exists w1, (flushed [Hooks.reset (Hooks.latest w1)] w1).
    split; [reflexivity|]. split; [exact Hmax|]. split; [apply step_Click|].
    rewrite countLeft_reset. exact Hmax. }
  split; [reflexivity|].
  destruct (class_step_Rerender (S fuel) p' cw Hi) as (cw1 & H1 & Hp & Hi1).
  exists cw1. eexists. split; [exact H1|]. split; [exact Hp|].
  rewrite class_step_Click by (rewrite Hi1; exact Hi).
  split; [reflexivity|]. cbn. exact Hi1.
Qed.

Lemma C2_reset_target_witness :
  exists cw1 cw2,
    ClassTimer.step 2 (ClassTimer.Rerender {| ClassTimer.maxCount := Some 10 |})
      (ClassTimer.mount {| ClassTimer.maxCount := Some 60 |} Host.empty) = Some cw1 /\
    ClassTimer.props (ClassTimer.this cw1) = {| ClassTimer.maxCount := Some 10 |} /\
    ClassTimer.step 2 ClassTimer.Click cw1 = Some cw2 /\
    ClassTimer.countLeft (ClassTimer.state (ClassTimer.this cw2)) = 60.
Proof.
  apply (C2_reset_target Hooks.OnChange 2 (Hooks.mounted 60 Host.empty) 10
           (ClassTimer.mount {| ClassTimer.maxCount := Some 60 |} Host.empty)
           {| ClassTimer.maxCount := Some 60 |} {| ClassTimer.maxCount := Some 10 |}).
  - lia.
  - simpl. lia.
Defined.

(** C2, as stated, fails in the class-based timer: constructed with
    [maxCount] 60, it is given [maxCount] 10 after one tick; the reset that
    follows sets the counter to 60, the value captured by the constructor. *)
Lemma C2_class_reset_uses_constructor_value :
  exists cw,
    ClassTimer.run 2
      [ClassTimer.Fire 1%positive;
       ClassTimer.Rerender {| ClassTimer.maxCount := Some 10 |};
       ClassTimer.Click]
      (ClassTimer.mount {| ClassTimer.maxCount := Some 60 |} Host.empty) = Some cw /\
    ClassTimer.maxCount (ClassTimer.props (ClassTimer.this cw)) = Some 10 /\
    ClassTimer.countLeft (ClassTimer.state (ClassTimer.this cw)) = 60 /\
    ClassTimer.shown cw = [60; 59; 59; 60].
Proof.
  eexists. split; [reflexivity|].
  repeat split; reflexivity.
Qed.

(** ** Construction *)

(** C4, as the code has it.  Every [maxCount] is accepted, zero and the
    negative numbers included: the first render and the constructor
    complete normally, the counter starts at that value and the interval
    is registered. *)
Theorem C4_construction_accepts_any_number (deps : Hooks.Deps) (fuel : nat) (m : Z)
    (h : Host.t (Update Z)) (ch : Host.t (Update ClassTimer.State)) :
  (1 <= fuel)%nat ->
  Hooks.first_render m = Normal {| Hooks.maxCount := m; Hooks.countLeft := m |} /\
  (exists w,
      Hooks.mount_Timer deps fuel {| Hooks.props_maxCount := Some m |} h = Some w /\
      Hooks.countLeft (Hooks.latest w) = m /\
      ticking w) /\
  (exists t,
      ClassTimer.new_Timer {| ClassTimer.maxCount := Some m |} = Normal t /\
      ClassTimer.countLeft (ClassTimer.state t) = m /\
      ClassTimer.initialCount t = m) /\
  class_ticking (Host.next_id ch)
    (ClassTimer.mount {| ClassTimer.maxCount := Some m |} ch).
Proof.
  intros Hfuel. destruct fuel as [|fuel]; [lia|].
  split; [reflexivity|].
  split.
  { unfold Hooks.mount_Timer. rewrite mount_any. eexists. split; [reflexivity|].
    split; [reflexivity|]. apply ticking_mounted. }
  split.
  { eexists. split; [reflexivity|]. split; reflexivity. }
  apply class_ticking_mount.
Qed.

Lemma C4_construction_accepts_any_number_witness :
  Hooks.first_render (-5) = Normal {| Hooks.maxCount := -5; Hooks.countLeft := -5 |}.
Proof.
  apply (C4_construction_accepts_any_number Hooks.OnChange 1 (-5) Host.empty Host.empty).
  lia.
Defined.

(** C4, as stated, fails: with [maxCount] 0 nothing is thrown, the state
    is created with the counter at 0 and the timer runs. *)
Lemma C4_zero_is_accepted :
  Hooks.first_render 0 <> Throw "InvalidConfigurationError" /\
  Hooks.first_render 0 = Normal {| Hooks.maxCount := 0; Hooks.countLeft := 0 |} /\
  ClassTimer.new_Timer {| ClassTimer.maxCount := Some 0 |}
  <> Throw "InvalidConfigurationError" /\
  exists w w',
    Hooks.mount Hooks.OnChange 2 0 Host.empty = Some w /\
    Hooks.countLeft (Hooks.latest w) = 0 /\
    Hooks.step Hooks.OnChange 2 (Hooks.Fire (Hooks.timerId w)) w = Some w' /\
    Hooks.countLeft (Hooks.latest w') = -1.
Proof.
  split; [discriminate|]. split; [reflexivity|]. split; [discriminate|].
  eexists _, _. split; [reflexivity|].
  split; [reflexivity|]. split; [reflexivity|]. reflexivity.
Qed.

(** ** Releasing the interval *)

Lemma class_world_eta (w : ClassTimer.World) :
  {| ClassTimer.host := ClassTimer.host w; ClassTimer.this := ClassTimer.this w;
     ClassTimer.shown := ClassTimer.shown w |} = w.
Proof. destruct w; reflexivity. Qed.

(** C5, as the code has it.  Calling the release twice never fails and
    removes the interval from the host once: after the first call the
    timer is no longer registered, and the second call leaves the host's
    timers as they are.  The handle is not cleared: [this.timerId] keeps
    its value (and the cleanup of the hook keeps its constant), so the
    second call is one more [clearInterval] with the same identifier.
    Only when [this.timerId] is still [null] does [componentWillUnmount]
    do nothing. *)
Theorem C5_release_twice (deps : Hooks.Deps) (fuel : nat) (w : Hooks.World)
    (cw : ClassTimer.World) :
  ClassTimer.run fuel [ClassTimer.Unmount; ClassTimer.Unmount] cw
  = Some (ClassTimer.unmount (ClassTimer.unmount cw)) /\
  ClassTimer.timerId (ClassTimer.this (ClassTimer.unmount cw))
  = ClassTimer.timerId (ClassTimer.this cw) /\
  Host.timers (ClassTimer.host (ClassTimer.unmount (ClassTimer.unmount cw)))
  = Host.timers (ClassTimer.host (ClassTimer.unmount cw)) /\
  match ClassTimer.timerId (ClassTimer.this cw) with
  | Some id =>
      Host.task id (ClassTimer.host (ClassTimer.unmount cw)) = None /\
      Host.clear_calls (ClassTimer.host (ClassTimer.unmount (ClassTimer.unmount cw)))
      = Host.clear_calls (ClassTimer.host cw) ++ [id; id]
  | None => ClassTimer.unmount cw = cw
  end /\
  Hooks.run deps fuel [Hooks.Unmount; Hooks.Unmount] w
  = Some (Hooks.cleanup (Hooks.cleanup w)) /\
  Host.task (Hooks.timerId w) (Hooks.host (Hooks.cleanup w)) = None /\
  Host.timers (Hooks.host (Hooks.cleanup (Hooks.cleanup w)))
  = Host.timers (Hooks.host (Hooks.cleanup w)) /\
  Host.clear_calls (Hooks.host (Hooks.cleanup (Hooks.cleanup w)))
  = Host.clear_calls (Hooks.host w) ++ [Hooks.timerId w; Hooks.timerId w].
Proof.
  split; [reflexivity|].
  split; [reflexivity|].
  split.
  { unfold ClassTimer.unmount, ClassTimer.componentWillUnmount.
    cbn [ClassTimer.this ClassTimer.host].
    destruct (ClassTimer.timerId (ClassTimer.this cw)) as [id|]; [|reflexivity].
    apply timers_clearInterval_twice. }
  split.
  { unfold ClassTimer.unmount, ClassTimer.componentWillUnmount.
    cbn [ClassTimer.this ClassTimer.host].
    destruct (ClassTimer.timerId (ClassTimer.this cw)) as [id|].
    - split; [apply task_clearInterval|].
      cbn [Host.clearInterval Host.clear_calls]. rewrite <- app_assoc. reflexivity.
    - apply class_world_eta. }
  split; [reflexivity|].
  split; [apply task_clearInterval|].
  split; [apply timers_clearInterval_twice|].
  cbn [Hooks.cleanup Hooks.host Hooks.timerId Host.clearInterval Host.clear_calls].
  rewrite <- app_assoc. reflexivity.
Qed.

(** C5, as stated, fails: after [componentWillUnmount] the stored handle
    is still the identifier, not [null], and the second call is not
    skipped: [clearInterval] is called a second time. *)
Lemma C5_handle_is_kept :
  ClassTimer.timerId
    (ClassTimer.this
       (ClassTimer.unmount (ClassTimer.mount {| ClassTimer.maxCount := Some 3 |} Host.empty)))
  = Some 1%positive /\
  Host.clear_calls
    (ClassTimer.host
       (ClassTimer.unmount
          (ClassTimer.unmount
             (ClassTimer.mount {| ClassTimer.maxCount := Some 3 |} Host.empty))))
  = [1%positive; 1%positive] /\
  ClassTimer.unmount
    (ClassTimer.unmount (ClassTimer.mount {| ClassTimer.maxCount := Some 3 |} Host.empty))
  <> ClassTimer.unmount (ClassTimer.mount {| ClassTimer.maxCount := Some 3 |} Host.empty).
Proof.
  split; [reflexivity|]. split; [reflexivity|].
  intros H. apply (f_equal (fun w => Host.clear_calls (ClassTimer.host w))) in H.
  vm_compute in H. discriminate.
Qed.

(** C7. No ghost ticks: once the cleanup of the hook or
    [componentWillUnmount] has run, the interval is no longer registered
    with the host, so the task of a firing of that interval, whenever it
    had been queued, finds no callback and leaves the timer, and so the
    counter, as it is. *)
Theorem C7_no_tick_after_release (deps : Hooks.Deps) (fuel n : nat) (w : Hooks.World)
    (cw : ClassTimer.World) (id : positive) :
  ClassTimer.timerId (ClassTimer.this cw) = Some id ->
  Hooks.run deps fuel (replicate n (Hooks.Fire (Hooks.timerId w))) (Hooks.cleanup w)
  = Some (Hooks.cleanup w) /\
  ClassTimer.run fuel (replicate n (ClassTimer.Fire id)) (ClassTimer.unmount cw)
  = Some (ClassTimer.unmount cw).
Proof.
  intros Hid. split.
  - induction n as [|n IH]; [reflexivity|].
    cbn [replicate Hooks.run Hooks.step].
    change (Hooks.host (Hooks.cleanup w))
      with (Host.clearInterval (Hooks.timerId w) (Hooks.host w)).
    rewrite task_clearInterval. exact IH.
  - induction n as [|n IH]; [reflexivity|].
    cbn [replicate ClassTimer.run ClassTimer.step].
    assert (E : ClassTimer.host (ClassTimer.unmount cw)
                = Host.clearInterval id (ClassTimer.host cw)).
    { unfold ClassTimer.unmount, ClassTimer.componentWillUnmount.
      cbn [ClassTimer.host]. rewrite Hid. reflexivity. }
    rewrite E at 1. rewrite task_clearInterval. exact IH.
Qed.

Lemma C7_no_tick_after_release_witness :
  ClassTimer.run 2 (replicate 1 (ClassTimer.Fire 1%positive))
    (ClassTimer.unmount (ClassTimer.mount {| ClassTimer.maxCount := Some 3 |} Host.empty))
  = Some (ClassTimer.unmount
            (ClassTimer.mount {| ClassTimer.maxCount := Some 3 |} Host.empty)).
Proof.
  apply (C7_no_tick_after_release Hooks.EveryRender 2 1 (Hooks.mounted 3 Host.empty)
           (ClassTimer.mount {| ClassTimer.maxCount := Some 3 |} Host.empty) 1%positive).
  reflexivity.
Defined.

(** * Further properties of the timers *)

(** ** The render loops come to an end, or do not *)

Lemma render_zero (deps : Hooks.Deps) (fuel : nat) (prev : option Hooks.Closure)
    (m : Z) (sh : list Z) :
  Hooks.render deps (S (S fuel)) prev m 0 sh
  = if Hooks.effect_runs deps prev {| Hooks.maxCount := m; Hooks.countLeft := 0 |}
       && negb (m =? 0)
    then Some ({| Hooks.maxCount := m; Hooks.countLeft := m |}, sh ++ [0; m])
    else Some ({| Hooks.maxCount := m; Hooks.countLeft := 0 |}, sh ++ [0]).
Proof.
  cbn [Hooks.render]. unfold Hooks.boundary_effect.
  cbn [Hooks.countLeft Hooks.maxCount Z.eqb].
  destruct (Hooks.effect_runs deps prev _).
  - cbn [process_queue apply_update andb].
    destruct (Z.eqb_spec m 0) as [->|Hm].
    + reflexivity.
    + rewrite effect_runs_changed by (simpl; lia).
      cbn [Hooks.countLeft Hooks.maxCount process_queue negb]. rewrite Z.eqb_refl.
      rewrite <- app_assoc. reflexivity.
  - cbn [process_queue andb]. reflexivity.
Qed.

Lemma render_two_passes (deps : Hooks.Deps) (fuel : nat)
    (prev : option Hooks.Closure) (m c : Z) (sh : list Z) :
  (2 <= fuel)%nat ->
  Hooks.render deps fuel prev m c sh
  = if Hooks.effect_runs deps prev {| Hooks.maxCount := m; Hooks.countLeft := c |}
       && (c =? 0) && negb (m =? 0)
    then Some ({| Hooks.maxCount := m; Hooks.countLeft := m |}, sh ++ [0; m])
    else Some ({| Hooks.maxCount := m; Hooks.countLeft := c |}, sh ++ [c]).
Proof.
  intros Hfuel. destruct fuel as [|[|fuel]]; try lia.
  destruct (Z.eqb_spec c 0) as [->|Hc].
  - rewrite render_zero, andb_true_r. reflexivity.
  - rewrite render_nonzero, andb_false_r by exact Hc. reflexivity.
Qed.

(** X1. The render loop of the hook-based timers ends after one or two
    renders, whatever the argument, the state and the previous render:
    two renders exactly when the boundary effect runs on a zero counter
    with [maxCount] not zero, and then the counter is [maxCount]. *)
Theorem X1_render_ends_within_two (deps : Hooks.Deps) (fuel : nat)
    (prev : option Hooks.Closure) (m c : Z) (sh : list Z) :
  (2 <= fuel)%nat ->
  Hooks.render deps fuel prev m c sh
  = if Hooks.effect_runs deps prev {| Hooks.maxCount := m; Hooks.countLeft := c |}
       && (c =? 0) && negb (m =? 0)
    then Some ({| Hooks.maxCount := m; Hooks.countLeft := m |}, sh ++ [0; m])
    else Some ({| Hooks.maxCount := m; Hooks.countLeft := c |}, sh ++ [c]).
Proof.
  intros Hfuel.
  destruct fuel as [|[|fuel]]; [lia|lia|].
  destruct (Z.eqb_spec c 0) as [Hc|Hc].
  - subst c. rewrite andb_true_r. apply render_zero.
  - rewrite andb_false_r. cbn [andb]. apply render_nonzero. exact Hc.
Qed.

Lemma X1_render_ends_within_two_witness :
  Hooks.render Hooks.OnChange 2 None 3 0 [1]
  = Some ({| Hooks.maxCount := 3; Hooks.countLeft := 3 |}, [1] ++ [0; 3]).
Proof.
  apply (X1_render_ends_within_two Hooks.OnChange 2 None 3 0 [1]). lia.
Defined.

Lemma setState_two_passes (fuel : nat) (u : Update ClassTimer.State)
    (t : ClassTimer.Timer) (sh : list Z) :
  (2 <= fuel)%nat ->
  ClassTimer.initialCount t <> 0 ->
  ClassTimer.setState fuel u t sh
  = Some (ClassTimer.set_state
            {| ClassTimer.countLeft :=
                 after_effect (ClassTimer.initialCount t)
                   (ClassTimer.countLeft (apply_update u (ClassTimer.state t))) |} t,
          sh ++ frames (ClassTimer.initialCount t)
                  (ClassTimer.countLeft (apply_update u (ClassTimer.state t)))).
Proof.
  intros Hfuel Hi. destruct fuel as [|[|fuel]]; try lia.
  unfold after_effect, frames.
  destruct (Z.eqb_spec (ClassTimer.countLeft (apply_update u (ClassTimer.state t))) 0)
    as [E|E].
  - rewrite setState_wrap by assumption. rewrite E.
    apply Z.eqb_neq in Hi. rewrite Hi. reflexivity.
  - rewrite setState_nonzero by exact E. cbn [andb].
    destruct (apply_update u (ClassTimer.state t)) as [c]. reflexivity.
Qed.

(** X2. With [initialCount] not zero every [setState] of the class-based
    timer ends after one or two renders: a counter that comes out as zero
    is shown and then replaced by [initialCount]; any other counter stays. *)
Theorem X2_setState_ends_within_two (fuel : nat) (u : Update ClassTimer.State)
    (t : ClassTimer.Timer) (sh : list Z) :
  (2 <= fuel)%nat ->
  ClassTimer.initialCount t <> 0 ->
  ClassTimer.setState fuel u t sh
  = Some (ClassTimer.set_state
            {| ClassTimer.countLeft :=
                 after_effect (ClassTimer.initialCount t)
                   (ClassTimer.countLeft (apply_update u (ClassTimer.state t))) |} t,
          sh ++ frames (ClassTimer.initialCount t)
                  (ClassTimer.countLeft (apply_update u (ClassTimer.state t)))).
Proof.
  intros Hfuel Hi.
  destruct fuel as [|[|fuel]]; [lia|lia|].
  unfold after_effect, frames.
  destruct (Z.eqb_spec (ClassTimer.countLeft (apply_update u (ClassTimer.state t))) 0)
    as [Hz|Hz].
  - rewrite Hz. apply Z.eqb_neq in Hi as Hi'. rewrite Hi'. cbn [andb negb].
    apply setState_wrap; assumption.
  - cbn [andb]. rewrite setState_nonzero by exact Hz.
    destruct (apply_update u (ClassTimer.state t)); reflexivity.
Qed.

Lemma X2_setState_ends_within_two_witness :
  ClassTimer.setState 2 (ClassTimer.tick (ClassTimer.constructor {| ClassTimer.maxCount := Some 1 |}))
    (ClassTimer.constructor {| ClassTimer.maxCount := Some 1 |}) [1]
  = Some (ClassTimer.set_state {| ClassTimer.countLeft := after_effect 1 (1 - 1) |}
            (ClassTimer.constructor {| ClassTimer.maxCount := Some 1 |}),
          [1] ++ frames 1 (1 - 1)).
Proof.
  apply (X2_setState_ends_within_two 2
           (ClassTimer.tick (ClassTimer.constructor {| ClassTimer.maxCount := Some 1 |}))
           (ClassTimer.constructor {| ClassTimer.maxCount := Some 1 |}) [1]).
  - lia.
  - simpl. lia.
Defined.

(** X3. With [initialCount] zero the class-based timer cannot be reset:
    the reset brings the counter to zero, [componentDidUpdate] resets
    again, and so on, so that no number of renders is enough.  The same
    happens when the parent renders a timer constructed with [maxCount]
    zero before its first tick. *)
Theorem X3_class_zero_reset_never_ends (fuel : nat) (p : ClassTimer.Props)
    (w : ClassTimer.World) (h : Host.t (Update ClassTimer.State)) :
  ClassTimer.initialCount (ClassTimer.this w) = 0 ->
  ClassTimer.step fuel ClassTimer.Click w = None /\
  ClassTimer.step fuel (ClassTimer.Rerender p)
    (ClassTimer.mount {| ClassTimer.maxCount := Some 0 |} h) = None.
Proof.
  intros Hi. split.
  - cbn [ClassTimer.step]. rewrite setState_no_end; [reflexivity| |exact Hi].
    cbn [ClassTimer.reset apply_update ClassTimer.countLeft]. exact Hi.
  - cbn [ClassTimer.step]. unfold ClassTimer.componentDidUpdate.
    cbn. rewrite setState_no_end; reflexivity.
Qed.

Lemma X3_class_zero_reset_never_ends_witness :
  ClassTimer.step 1000 ClassTimer.Click
    (ClassTimer.mount {| ClassTimer.maxCount := Some 0 |} Host.empty) = None.
Proof.
  refine (proj1 (X3_class_zero_reset_never_ends 1000 {| ClassTimer.maxCount := Some 0 |}
           (ClassTimer.mount {| ClassTimer.maxCount := Some 0 |} Host.empty) Host.empty _)).
  reflexivity.
Defined.

(** ** The dependency array *)

Lemma settled_flushed (q : list (Update Z)) (w : Hooks.World) :
  settled w -> settled (flushed q w).
Proof.
  intros Hs. unfold flushed. destruct (_ =? _); [exact Hs|].
  unfold settled, changed_to, after_effect. cbn [Hooks.latest Hooks.countLeft Hooks.maxCount].
  destruct (Z.eqb_spec (process_queue q (Hooks.countLeft (Hooks.latest w))) 0); lia.
Qed.

Lemma settled_mounted (m : Z) (h : Host.t (Update Z)) : settled (Hooks.mounted m h).
Proof. unfold settled, Hooks.mounted. cbn. lia. Qed.

Lemma step_same_for_both (fuel : nat) (e : Hooks.Event) (w : Hooks.World) :
  settled w ->
  exists w',
    Hooks.step Hooks.EveryRender (S (S fuel)) e w = Some w' /\
    Hooks.step Hooks.OnChange (S (S fuel)) e w = Some w' /\
    settled w'.
Proof.
  intros Hs. destruct e as [id| |m'| |ts].
  - cbn [Hooks.step]. destruct (Host.task id (Hooks.host w)) as [cb|].
    + rewrite !flush_flushed. eexists. split; [reflexivity|]. split; [reflexivity|].
      apply settled_flushed. exact Hs.
    + exists w. auto.
  - rewrite !step_Click. eexists. split; [reflexivity|]. split; [reflexivity|].
    apply settled_flushed. exact Hs.
  - cbn [Hooks.step].
    rewrite !render_two_passes by lia.
    cbn [Hooks.effect_runs Hooks.countLeft Hooks.maxCount]. rewrite Z.eqb_refl.
    cbn [andb].
    destruct (Z.eqb_spec (Hooks.countLeft (Hooks.latest w)) 0) as [Hc|Hc].
    + destruct (Z.eqb_spec (Hooks.maxCount (Hooks.latest w)) m') as [Hm|Hm].
      * assert (Hm0 : m' = 0) by (rewrite <- Hm; apply Hs; exact Hc).
        subst m'. rewrite Hm0. cbn [negb andb Z.eqb].
        eexists. split; [reflexivity|]. split; [reflexivity|].
        unfold settled. cbn. lia.
      * cbn [negb andb].
        destruct (Z.eqb_spec m' 0) as [Hm0|Hm0]; cbn [negb];
          (eexists; split; [reflexivity|]; split; [reflexivity|]);
          unfold settled; cbn; lia.
    + rewrite !andb_false_r. cbn [andb].
      eexists. split; [reflexivity|]. split; [reflexivity|].
      unfold settled. cbn. lia.
  - exists (Hooks.cleanup w). split; [reflexivity|]. split; [reflexivity|]. exact Hs.
  - cbn [Hooks.step]. rewrite !flush_flushed.
    eexists. split; [reflexivity|]. split; [reflexivity|].
    apply settled_flushed. exact Hs.
Qed.

(** X4. The dependency array [[countLeft, maxCount]] of the boundary
    effect changes nothing: mounted with the same argument on the same
    host and given the same events (firings, resets, new arguments from
    the parent, unmount), the timer with the array and the timer without
    it go through the same states and show the same values, and no event
    fails. *)
Theorem X4_dependency_array_changes_nothing (fuel : nat) (m : Z)
    (h : Host.t (Update Z)) (es : list Hooks.Event) :
  (2 <= fuel)%nat ->
  exists w0 w,
    Hooks.mount Hooks.EveryRender fuel m h = Some w0 /\
    Hooks.mount Hooks.OnChange fuel m h = Some w0 /\
    Hooks.run Hooks.EveryRender fuel es w0 = Some w /\
    Hooks.run Hooks.OnChange fuel es w0 = Some w.
Proof.
  intros Hfuel. destruct fuel as [|[|fuel]]; try lia.
  exists (Hooks.mounted m h).
  assert (Hrun : forall w0, settled w0 ->
            exists w, Hooks.run Hooks.EveryRender (S (S fuel)) es w0 = Some w /\
                      Hooks.run Hooks.OnChange (S (S fuel)) es w0 = Some w).
  { induction es as [|e es IH]; intros w0 Hs.
    - exists w0. split; reflexivity.
    - destruct (step_same_for_both fuel e w0 Hs) as (w1 & H1 & H2 & Hs1).
      cbn [Hooks.run]. rewrite H1, H2. apply IH. exact Hs1. }
  destruct (Hrun (Hooks.mounted m h) (settled_mounted m h)) as (w & H1 & H2).
  exists w. rewrite !mount_any. auto.
Qed.

Lemma X4_dependency_array_changes_nothing_witness :
  exists w0 w,
    Hooks.mount Hooks.EveryRender 2 0 Host.empty = Some w0 /\
    Hooks.mount Hooks.OnChange 2 0 Host.empty = Some w0 /\
    Hooks.run Hooks.EveryRender 2
      [Hooks.Rerender 0; Hooks.Rerender 2; Hooks.Fire 1%positive; Hooks.Fire 1%positive;
       Hooks.Click; Hooks.Unmount] w0 = Some w /\
    Hooks.run Hooks.OnChange 2
      [Hooks.Rerender 0; Hooks.Rerender 2; Hooks.Fire 1%positive; Hooks.Fire 1%positive;
       Hooks.Click; Hooks.Unmount] w0 = Some w.
Proof.
  apply (X4_dependency_array_changes_nothing 2 0 Host.empty
           [Hooks.Rerender 0; Hooks.Rerender 2; Hooks.Fire 1%positive; Hooks.Fire 1%positive;
            Hooks.Click; Hooks.Unmount]).
  lia.
Defined.

(** ** The counter after any number of firings *)

Lemma mod_succ_cases (m k : Z) :
  0 < m -> 0 <= k ->
  (k mod m = m - 1 /\ (k + 1) mod m = 0 /\ (k + 1) / m = k / m + 1) \/
  (k mod m < m - 1 /\ (k + 1) mod m = k mod m + 1 /\ (k + 1) / m = k / m).
Proof.
  intros Hm Hk.
  pose proof (Z.div_mod k m ltac:(lia)) as Hdm.
  pose proof (Z.mod_pos_bound k m Hm) as Hb.
  destruct (Z.eq_dec (k mod m) (m - 1)) as [E|E].
  - left. split; [exact E|].
    assert (Hq : k + 1 = m * (k / m + 1) + 0) by lia.
    split.
    + symmetry. apply (Z.mod_unique_pos (k + 1) m (k / m + 1) 0); [lia|exact Hq].
    + symmetry. apply (Z.div_unique_pos (k + 1) m (k / m + 1) 0); [lia|exact Hq].
  - right. split; [lia|].
    assert (Hq : k + 1 = m * (k / m) + (k mod m + 1)) by lia.
    split.
    + symmetry. apply (Z.mod_unique_pos (k + 1) m (k / m) (k mod m + 1)); [lia|exact Hq].
    + symmetry. apply (Z.div_unique_pos (k + 1) m (k / m) (k mod m + 1)); [lia|exact Hq].
Qed.

Lemma zeros_app (l1 l2 : list Z) : zeros (l1 ++ l2) = (zeros l1 + zeros l2)%nat.
Proof. apply count_occ_app. Qed.

Lemma zeros_frames (m c' : Z) :
  m <> 0 -> zeros (frames m c') = if c' =? 0 then 1%nat else 0%nat.
Proof.
  intros Hm. unfold frames, zeros.
  destruct (Z.eqb_spec c' 0) as [->|Hc].
  - apply Z.eqb_neq in Hm as Hm'. rewrite Hm'. cbn [andb negb count_occ].
    destruct (Z.eq_dec 0 0); [|congruence].
    destruct (Z.eq_dec m 0); [congruence|reflexivity].
  - cbn [andb count_occ]. destruct (Z.eq_dec c' 0); [congruence|reflexivity].
Qed.

Lemma hooks_cycle_position (deps : Hooks.Deps) (fuel : nat) (w : Hooks.World) (n : nat) :
  ticking w ->
  0 < Hooks.countLeft (Hooks.latest w) <= Hooks.maxCount (Hooks.latest w) ->
  Hooks.maxCount (Hooks.latest w) <= Number.two53 ->
  exists w',
    Hooks.run deps (S (S fuel)) (replicate n (Hooks.Fire (Hooks.timerId w))) w = Some w' /\
    Hooks.host w' = Hooks.host w /\ Hooks.timerId w' = Hooks.timerId w /\
    Hooks.maxCount (Hooks.latest w') = Hooks.maxCount (Hooks.latest w) /\
    Hooks.countLeft (Hooks.latest w')
    = Hooks.maxCount (Hooks.latest w)
      - (Hooks.maxCount (Hooks.latest w) - Hooks.countLeft (Hooks.latest w) + Z.of_nat n)
        mod Hooks.maxCount (Hooks.latest w) /\
    Z.of_nat (zeros (Hooks.shown w'))
    = Z.of_nat (zeros (Hooks.shown w))
      + (Hooks.maxCount (Hooks.latest w) - Hooks.countLeft (Hooks.latest w) + Z.of_nat n)
        / Hooks.maxCount (Hooks.latest w).
Proof.
  intros Ht Hc Hm53.
  set (m := Hooks.maxCount (Hooks.latest w)) in *.
  set (c := Hooks.countLeft (Hooks.latest w)) in *.
  assert (H53 : 0 < Number.two53) by reflexivity.
  induction n as [|n IH].
  - exists w. cbn [replicate Hooks.run]. repeat split; try reflexivity.
    + rewrite Z.add_0_r, Z.mod_small by lia. lia.
    + rewrite Z.add_0_r, Z.div_small by lia. lia.
  - destruct IH as (w1 & Hrun & Hh & Hid & Hm1 & Hc1 & Hz1).
    rewrite replicate_snoc, hooks_run_app, Hrun. cbn [Hooks.run].
    assert (Ht1 : ticking w1) by (unfold ticking; rewrite Hh, Hid; exact Ht).
    assert (Hx1 : Number.exact (Hooks.countLeft (Hooks.latest w1))).
    { rewrite Hc1. unfold Number.exact.
      pose proof (Z.mod_pos_bound (m - c + Z.of_nat n) m ltac:(lia)). lia. }
    rewrite <- Hid. rewrite step_Fire by assumption.
    eexists. split; [reflexivity|].
    cbn [changed_to Hooks.host Hooks.timerId Hooks.latest Hooks.maxCount Hooks.countLeft
         Hooks.shown].
    split; [exact Hh|]. split; [reflexivity|]. split; [exact Hm1|].
    rewrite Hm1, Hc1, zeros_app, zeros_frames by lia.
    rewrite Nat2Z.inj_add, Hz1.
    replace (m - c + Z.of_nat (S n)) with (m - c + Z.of_nat n + 1) by lia.
    unfold after_effect.
    destruct (mod_succ_cases m (m - c + Z.of_nat n)) as [(E1 & E2 & E3)|(E1 & E2 & E3)];
      try lia; rewrite E2, E3.
    + replace (m - (m - c + Z.of_nat n) mod m - 1) with 0 by lia.
      cbn [Z.eqb]. split; lia.
    + destruct (Z.eqb_spec (m - (m - c + Z.of_nat n) mod m - 1) 0); [lia|]. split; lia.
Qed.

(** X5. The counter of a hook-based timer as a function of the number of
    firings, for an integer [maxCount] not above [2^53] and firings that
    are each rendered before the next: from a counter [c] with
    [0 < c <= maxCount], after [n] firings the counter is
    [maxCount - ((maxCount - c + n) mod maxCount)], and zero has been put
    on the screen once for every completed cycle,
    [(maxCount - c + n) / maxCount] times. *)
Theorem X5_counter_after_n_firings (deps : Hooks.Deps) (fuel : nat) (w : Hooks.World)
    (n : nat) :
  (2 <= fuel)%nat ->
  ticking w ->
  0 < Hooks.countLeft (Hooks.latest w) <= Hooks.maxCount (Hooks.latest w) ->
  Hooks.maxCount (Hooks.latest w) <= Number.two53 ->
  exists w',
    Hooks.run deps fuel (replicate n (Hooks.Fire (Hooks.timerId w))) w = Some w' /\
    Hooks.countLeft (Hooks.latest w')
    = Hooks.maxCount (Hooks.latest w)
      - (Hooks.maxCount (Hooks.latest w) - Hooks.countLeft (Hooks.latest w) + Z.of_nat n)
        mod Hooks.maxCount (Hooks.latest w) /\
    Z.of_nat (zeros (Hooks.shown w'))
    = Z.of_nat (zeros (Hooks.shown w))
      + (Hooks.maxCount (Hooks.latest w) - Hooks.countLeft (Hooks.latest w) + Z.of_nat n)
        / Hooks.maxCount (Hooks.latest w).
Proof.
  intros Hfuel Ht Hc Hm53. destruct fuel as [|[|fuel]]; try lia.
  destruct (hooks_cycle_position deps fuel w n Ht Hc Hm53)
    as (w' & Hrun & _ & _ & _ & Hc' & Hz).
  exists w'. auto.
Qed.

Lemma X5_counter_after_n_firings_witness :
  exists w',
    Hooks.run Hooks.EveryRender 2 (replicate 7 (Hooks.Fire 1%positive))
      (Hooks.mounted 3 Host.empty) = Some w' /\
    Hooks.countLeft (Hooks.latest w') = 3 - (3 - 3 + Z.of_nat 7) mod 3 /\
    Z.of_nat (zeros (Hooks.shown w')) = Z.of_nat (zeros [3]) + (3 - 3 + Z.of_nat 7) / 3.
Proof.
  apply (X5_counter_after_n_firings Hooks.EveryRender 2 (Hooks.mounted 3 Host.empty) 7).
  - lia.
  - reflexivity.
  - simpl. lia.
  - vm_compute. discriminate.
Defined.

Lemma class_run_app (fuel : nat) (es1 es2 : list ClassTimer.Event) (w : ClassTimer.World) :
  ClassTimer.run fuel (es1 ++ es2) w
  = match ClassTimer.run fuel es1 w with
    | Some w1 => ClassTimer.run fuel es2 w1
    | None => None
    end.
Proof.
  revert w. induction es1 as [|e es1 IH]; intros w; [reflexivity|].
  cbn [app ClassTimer.run]. destruct (ClassTimer.step fuel e w); [apply IH|reflexivity].
Qed.

Lemma class_step_Fire (fuel : nat) (id : positive) (w : ClassTimer.World) :
  class_ticking id w ->
  ClassTimer.initialCount (ClassTimer.this w) <> 0 ->
  Number.exact (ClassTimer.countLeft (ClassTimer.state (ClassTimer.this w))) ->
  ClassTimer.step (S (S fuel)) (ClassTimer.Fire id) w
  = Some (class_changed_to
            (ClassTimer.countLeft (ClassTimer.state (ClassTimer.this w)) - 1) w).
Proof.
  intros Ht Hi Hx. cbn [ClassTimer.step]. rewrite Ht.
  rewrite setState_two_passes by (lia || exact Hi).
  cbn [ClassTimer.tick apply_update ClassTimer.countLeft].
  rewrite minus_one_exact by exact Hx. reflexivity.
Qed.

Lemma class_cycle_position (fuel : nat) (id : positive) (w : ClassTimer.World) (n : nat) :
  class_ticking id w ->
  0 < ClassTimer.countLeft (ClassTimer.state (ClassTimer.this w))
    <= ClassTimer.initialCount (ClassTimer.this w) ->
  ClassTimer.initialCount (ClassTimer.this w) <= Number.two53 ->
  exists w',
    ClassTimer.run (S (S fuel)) (replicate n (ClassTimer.Fire id)) w = Some w' /\
    ClassTimer.host w' = ClassTimer.host w /\
    ClassTimer.initialCount (ClassTimer.this w') = ClassTimer.initialCount (ClassTimer.this w) /\
    ClassTimer.countLeft (ClassTimer.state (ClassTimer.this w'))
    = ClassTimer.initialCount (ClassTimer.this w)
      - (ClassTimer.initialCount (ClassTimer.this w)
         - ClassTimer.countLeft (ClassTimer.state (ClassTimer.this w)) + Z.of_nat n)
        mod ClassTimer.initialCount (ClassTimer.this w) /\
    Z.of_nat (zeros (ClassTimer.shown w'))
    = Z.of_nat (zeros (ClassTimer.shown w))
      + (ClassTimer.initialCount (ClassTimer.this w)
         - ClassTimer.countLeft (ClassTimer.state (ClassTimer.this w)) + Z.of_nat n)
        / ClassTimer.initialCount (ClassTimer.this w).
Proof.
  intros Ht Hc Hm53.
  set (m := ClassTimer.initialCount (ClassTimer.this w)) in *.
  set (c := ClassTimer.countLeft (ClassTimer.state (ClassTimer.this w))) in *.
  assert (H53 : 0 < Number.two53) by reflexivity.
  induction n as [|n IH].
  - exists w. cbn [replicate ClassTimer.run]. repeat split; try reflexivity.
    + rewrite Z.add_0_r, Z.mod_small by lia. lia.
    + rewrite Z.add_0_r, Z.div_small by lia. lia.
  - destruct IH as (w1 & Hrun & Hh & Hm1 & Hc1 & Hz1).
    rewrite replicate_snoc, class_run_app, Hrun. cbn [ClassTimer.run].
    assert (Ht1 : class_ticking id w1) by (unfold class_ticking; rewrite Hh; exact Ht).
    assert (Hx1 : Number.exact (ClassTimer.countLeft (ClassTimer.state (ClassTimer.this w1)))).
    { rewrite Hc1. unfold Number.exact.
      pose proof (Z.mod_pos_bound (m - c + Z.of_nat n) m ltac:(lia)). lia. }
    rewrite class_step_Fire by (assumption || (rewrite Hm1; lia)).
    eexists. split; [reflexivity|].
    unfold class_changed_to, ClassTimer.set_state.
    cbn [ClassTimer.host ClassTimer.this ClassTimer.initialCount ClassTimer.state
         ClassTimer.countLeft ClassTimer.shown].
    split; [exact Hh|]. split; [exact Hm1|].
    rewrite Hm1, Hc1, zeros_app, zeros_frames by lia.
    rewrite Nat2Z.inj_add, Hz1.
    replace (m - c + Z.of_nat (S n)) with (m - c + Z.of_nat n + 1) by lia.
    unfold after_effect.
    destruct (mod_succ_cases m (m - c + Z.of_nat n)) as [(E1 & E2 & E3)|(E1 & E2 & E3)];
      try lia; rewrite E2, E3.
    + replace (m - (m - c + Z.of_nat n) mod m - 1) with 0 by lia.
      cbn [Z.eqb]. split; lia.
    + destruct (Z.eqb_spec (m - (m - c + Z.of_nat n) mod m - 1) 0); [lia|]. split; lia.
Qed.

(** X6. The counter of the class-based timer as a function of the number
    of firings, for an integer [initialCount] not above [2^53] and firings
    that are each rendered before the next: from a counter [c] with
    [0 < c <= initialCount], after [n] firings the counter is
    [initialCount - ((initialCount - c + n) mod initialCount)], and zero
    has been put on the screen [(initialCount - c + n) / initialCount]
    times; the cycle length is [initialCount], whatever [props.maxCount]
    is by then. *)
Theorem X6_class_counter_after_n_firings (fuel : nat) (id : positive)
    (w : ClassTimer.World) (n : nat) :
  (2 <= fuel)%nat ->
  class_ticking id w ->
  0 < ClassTimer.countLeft (ClassTimer.state (ClassTimer.this w))
    <= ClassTimer.initialCount (ClassTimer.this w) ->
  ClassTimer.initialCount (ClassTimer.this w) <= Number.two53 ->
  exists w',
    ClassTimer.run fuel (replicate n (ClassTimer.Fire id)) w = Some w' /\
    ClassTimer.countLeft (ClassTimer.state (ClassTimer.this w'))
    = ClassTimer.initialCount (ClassTimer.this w)
      - (ClassTimer.initialCount (ClassTimer.this w)
         - ClassTimer.countLeft (ClassTimer.state (ClassTimer.this w)) + Z.of_nat n)
        mod ClassTimer.initialCount (ClassTimer.this w) /\
    Z.of_nat (zeros (ClassTimer.shown w'))
    = Z.of_nat (zeros (ClassTimer.shown w))
      + (ClassTimer.initialCount (ClassTimer.this w)
         - ClassTimer.countLeft (ClassTimer.state (ClassTimer.this w)) + Z.of_nat n)
        / ClassTimer.initialCount (ClassTimer.this w).
Proof.
  intros Hfuel Ht Hc Hm53. destruct fuel as [|[|fuel]]; try lia.
  destruct (class_cycle_position fuel id w n Ht Hc Hm53) as (w' & Hrun & _ & _ & Hc' & Hz).
  exists w'. auto.
Qed.

Lemma X6_class_counter_after_n_firings_witness :
  exists w',
    ClassTimer.run 2 (replicate 7 (ClassTimer.Fire 1%positive))
      (ClassTimer.mount {| ClassTimer.maxCount := Some 3 |} Host.empty) = Some w' /\
    ClassTimer.countLeft (ClassTimer.state (ClassTimer.this w'))
    = 3 - (3 - 3 + Z.of_nat 7) mod 3 /\
    Z.of_nat (zeros (ClassTimer.shown w')) = Z.of_nat (zeros [3]) + (3 - 3 + Z.of_nat 7) / 3.
Proof.
  apply (X6_class_counter_after_n_firings 2 1%positive
           (ClassTimer.mount {| ClassTimer.maxCount := Some 3 |} Host.empty) 7).
  - lia.
  - reflexivity.
  - simpl. lia.
  - vm_compute. discriminate.
Defined.

(** ** One interval, released without a trace *)

Lemma render_some_inv (deps : Hooks.Deps) (w w' : Hooks.World)
    (r : option (Hooks.Closure * list Z)) :
  match r with
  | Some (r, sh) =>
      Some {| Hooks.host := Hooks.host w; Hooks.latest := r; Hooks.shown := sh;
              Hooks.timerId := Hooks.timerId w |}
  | None => None
  end = Some w' ->
  Hooks.timerId w' = Hooks.timerId w /\ Hooks.host w' = Hooks.host w.
Proof.
  destruct r as [[r sh]|]; [|discriminate]. intros H. injection H as <-. auto.
Qed.

Lemma hooks_step_host (deps : Hooks.Deps) (fuel : nat) (e : Hooks.Event)
    (w w' : Hooks.World) :
  Hooks.step deps fuel e w = Some w' ->
  Hooks.timerId w' = Hooks.timerId w /\
  (Hooks.host w' = Hooks.host w \/
   Hooks.host w' = Host.clearInterval (Hooks.timerId w) (Hooks.host w)).
Proof.
  assert (Hflush : forall q, Hooks.flush deps fuel q w = Some w' ->
            Hooks.timerId w' = Hooks.timerId w /\ Hooks.host w' = Hooks.host w).
  { intros q. unfold Hooks.flush. destruct (_ =? _).
    - intros H. injection H as <-. auto.
    - apply (render_some_inv deps). }
  destruct e as [id| |m'| |ts]; cbn [Hooks.step].
  - destruct (Host.task id (Hooks.host w)).
    + intros H. apply Hflush in H as [? ?]. auto.
    + intros H. injection H as <-. auto.
  - intros H. apply Hflush in H as [? ?]. auto.
  - intros H. apply (render_some_inv deps) in H as [? ?]. auto.
  - intros H. injection H as <-. auto.
  - intros H. apply Hflush in H as [? ?]. auto.
Qed.

Lemma hooks_run_host (deps : Hooks.Deps) (fuel : nat) (es : list Hooks.Event)
    (w w' : Hooks.World) :
  Hooks.run deps fuel es w = Some w' ->
  Hooks.timerId w' = Hooks.timerId w /\
  Host.next_id (Hooks.host w') = Host.next_id (Hooks.host w) /\
  (Host.timers (Hooks.host w') = Host.timers (Hooks.host w) \/
   Host.timers (Hooks.host w') = delete (Hooks.timerId w) (Host.timers (Hooks.host w))).
Proof.
  revert w. induction es as [|e es IH]; intros w H.
  - injection H as <-. auto.
  - cbn [Hooks.run] in H. destruct (Hooks.step deps fuel e w) as [w1|] eqn:Hstep;
      [|discriminate].
    apply hooks_step_host in Hstep as [Hid Hh].
    apply IH in H as (Hid' & Hn & Ht). rewrite Hid in *.
    split; [exact Hid'|].
    destruct Hh as [Hh|Hh]; rewrite Hh in *; cbn [Host.clearInterval Host.next_id Host.timers] in *.
    + auto.
    + split; [exact Hn|]. right. destruct Ht as [Ht|Ht]; rewrite Ht; [reflexivity|].
      apply delete_id, lookup_delete_eq.
Qed.

Lemma setState_keeps_fields (fuel : nat) (u : Update ClassTimer.State)
    (t t' : ClassTimer.Timer) (sh sh' : list Z) :
  ClassTimer.setState fuel u t sh = Some (t', sh') ->
  ClassTimer.timerId t' = ClassTimer.timerId t /\
  ClassTimer.initialCount t' = ClassTimer.initialCount t /\
  ClassTimer.props t' = ClassTimer.props t.
Proof.
  revert u t sh. induction fuel as [|fuel IH]; intros u t sh H; [discriminate|].
  cbn [ClassTimer.setState] in H.
  destruct (ClassTimer.componentDidUpdate _) as [u'|].
  - apply IH in H as (H1 & H2 & H3). auto.
  - injection H as <- <-. auto.
Qed.

Lemma class_step_host (fuel : nat) (e : ClassTimer.Event) (w w' : ClassTimer.World) :
  ClassTimer.step fuel e w = Some w' ->
  ClassTimer.timerId (ClassTimer.this w') = ClassTimer.timerId (ClassTimer.this w) /\
  ClassTimer.initialCount (ClassTimer.this w') = ClassTimer.initialCount (ClassTimer.this w) /\
  (ClassTimer.host w' = ClassTimer.host w \/
   ClassTimer.host w' = ClassTimer.componentWillUnmount (ClassTimer.this w) (ClassTimer.host w)).
Proof.
  assert (Hset : forall u t sh,
            ClassTimer.timerId t = ClassTimer.timerId (ClassTimer.this w) ->
            ClassTimer.initialCount t = ClassTimer.initialCount (ClassTimer.this w) ->
            ClassTimer.with_this w (ClassTimer.setState fuel u t sh) = Some w' ->
            ClassTimer.timerId (ClassTimer.this w') = ClassTimer.timerId (ClassTimer.this w) /\
            ClassTimer.initialCount (ClassTimer.this w')
            = ClassTimer.initialCount (ClassTimer.this w) /\
            ClassTimer.host w' = ClassTimer.host w).
  { intros u t sh Ht Hi H.
    destruct (ClassTimer.setState fuel u t sh) as [[t' sh']|] eqn:Hs; [|discriminate].
    apply setState_keeps_fields in Hs as (H1 & H2 & _).
    cbn [ClassTimer.with_this] in H. injection H as <-.
    cbn [ClassTimer.this ClassTimer.host]. rewrite H1, H2. auto. }
  destruct e as [id| |p| |ts]; cbn [ClassTimer.step].
  - destruct (Host.task id (ClassTimer.host w)).
    + intros H. apply Hset in H as (? & ? & ?); auto.
    + intros H. injection H as <-. auto.
  - intros H. apply Hset in H as (? & ? & ?); auto.
  - destruct (ClassTimer.componentDidUpdate _).
    + intros H. apply Hset in H as (? & ? & ?); auto.
    + intros H. injection H as <-. auto.
  - intros H. injection H as <-. auto.
  - unfold ClassTimer.setState_queue. destruct (flat_map _ ts).
    + intros H. injection H as <-. auto.
    + intros H. apply Hset in H as (? & ? & ?); auto.
Qed.

Lemma class_run_host (fuel : nat) (es : list ClassTimer.Event) (w w' : ClassTimer.World)
    (id : positive) :
  ClassTimer.timerId (ClassTimer.this w) = Some id ->
  ClassTimer.run fuel es w = Some w' ->
  ClassTimer.timerId (ClassTimer.this w') = Some id /\
  ClassTimer.initialCount (ClassTimer.this w') = ClassTimer.initialCount (ClassTimer.this w) /\
  Host.next_id (ClassTimer.host w') = Host.next_id (ClassTimer.host w) /\
  (Host.timers (ClassTimer.host w') = Host.timers (ClassTimer.host w) \/
   Host.timers (ClassTimer.host w') = delete id (Host.timers (ClassTimer.host w))).
Proof.
  revert w. induction es as [|e es IH]; intros w Hid H.
  - injection H as <-. auto.
  - cbn [ClassTimer.run] in H. destruct (ClassTimer.step fuel e w) as [w1|] eqn:Hstep;
      [|discriminate].
    apply class_step_host in Hstep as (Hid1 & Hi1 & Hh).
    apply IH in H as (Hid' & Hi' & Hn & Ht); [|rewrite Hid1; exact Hid].
    split; [exact Hid'|]. split; [rewrite Hi'; exact Hi1|].
    unfold ClassTimer.componentWillUnmount in Hh. rewrite Hid in Hh.
    destruct Hh as [Hh|Hh]; rewrite Hh in *; cbn [Host.clearInterval Host.next_id Host.timers] in *.
    + auto.
    + split; [exact Hn|]. right. destruct Ht as [Ht|Ht]; rewrite Ht; [reflexivity|].
      apply delete_id, lookup_delete_eq.
Qed.

(** X7. A mounted timer never registers a second interval: whatever the
    events (firings, resets, new props, unmount), the host hands out no
    further identifier, the timer keeps its handle, and the host's timers
    are those it had before the events, possibly without the timer's own. *)
Theorem X7_no_second_interval (deps : Hooks.Deps) (fuel : nat)
    (es : list Hooks.Event) (w w' : Hooks.World)
    (ces : list ClassTimer.Event) (cw cw' : ClassTimer.World) (id : positive) :
  Hooks.run deps fuel es w = Some w' ->
  ClassTimer.timerId (ClassTimer.this cw) = Some id ->
  ClassTimer.run fuel ces cw = Some cw' ->
  (Hooks.timerId w' = Hooks.timerId w /\
   Host.next_id (Hooks.host w') = Host.next_id (Hooks.host w) /\
   (Host.timers (Hooks.host w') = Host.timers (Hooks.host w) \/
    Host.timers (Hooks.host w') = delete (Hooks.timerId w) (Host.timers (Hooks.host w)))) /\
  (ClassTimer.timerId (ClassTimer.this cw') = Some id /\
   Host.next_id (ClassTimer.host cw') = Host.next_id (ClassTimer.host cw) /\
   (Host.timers (ClassTimer.host cw') = Host.timers (ClassTimer.host cw) \/
    Host.timers (ClassTimer.host cw') = delete id (Host.timers (ClassTimer.host cw)))).
Proof.
  intros Hrun Hid Hcrun. split.
  - apply (hooks_run_host deps fuel es). exact Hrun.
  - destruct (class_run_host fuel ces cw cw' id Hid Hcrun) as (H1 & _ & H2 & H3). auto.
Qed.

Lemma X7_no_second_interval_witness :
  Hooks.timerId (changed_to 1 (changed_to 2 (Hooks.mounted 3 Host.empty)))
  = Hooks.timerId (Hooks.mounted 3 Host.empty) /\
  Host.next_id (Hooks.host (changed_to 1 (changed_to 2 (Hooks.mounted 3 Host.empty))))
  = Host.next_id (Hooks.host (Hooks.mounted 3 Host.empty)) /\
  (Host.timers (Hooks.host (changed_to 1 (changed_to 2 (Hooks.mounted 3 Host.empty))))
   = Host.timers (Hooks.host (Hooks.mounted 3 Host.empty)) \/
   Host.timers (Hooks.host (changed_to 1 (changed_to 2 (Hooks.mounted 3 Host.empty))))
   = delete (Hooks.timerId (Hooks.mounted 3 Host.empty))
       (Host.timers (Hooks.host (Hooks.mounted 3 Host.empty)))).
Proof.
  refine (proj1 (X7_no_second_interval Hooks.EveryRender 2
           [Hooks.Fire 1%positive; Hooks.Fire 1%positive]
           (Hooks.mounted 3 Host.empty)
           (changed_to 1 (changed_to 2 (Hooks.mounted 3 Host.empty)))
           [ClassTimer.Unmount]
           (ClassTimer.mount {| ClassTimer.maxCount := Some 3 |} Host.empty)
           (ClassTimer.unmount (ClassTimer.mount {| ClassTimer.maxCount := Some 3 |} Host.empty))
           1%positive _ _ _)).
  - reflexivity.
  - reflexivity.
  - reflexivity.
Defined.

(** X8. Mounting and releasing leave no trace on the host: when the
    identifier that [setInterval] hands out is not in use, then after
    mounting, any events, and the release ([clearInterval] in the cleanup
    or in [componentWillUnmount]), the host's timers are exactly those it
    had before the timer was mounted. *)
Theorem X8_release_restores_host (deps : Hooks.Deps) (fuel : nat) (m : Z)
    (h : Host.t (Update Z)) (es : list Hooks.Event) (w : Hooks.World)
    (p : ClassTimer.Props) (ch : Host.t (Update ClassTimer.State))
    (ces : list ClassTimer.Event) (cw : ClassTimer.World) :
  (1 <= fuel)%nat ->
  next_id_unused h ->
  Hooks.run deps fuel es (Hooks.mounted m h) = Some w ->
  next_id_unused ch ->
  ClassTimer.run fuel ces (ClassTimer.mount p ch) = Some cw ->
  Hooks.mount deps fuel m h = Some (Hooks.mounted m h) /\
  Host.timers (Hooks.host (Hooks.cleanup w)) = Host.timers h /\
  Host.timers (ClassTimer.host (ClassTimer.unmount cw)) = Host.timers ch.
Proof.
  intros Hfuel Hh Hrun Hch Hcrun. destruct fuel as [|fuel]; [lia|].
  split; [apply mount_any|]. split.
  - apply hooks_run_host in Hrun as (Hid & _ & Ht).
    cbn [Hooks.cleanup Hooks.host Host.clearInterval Host.timers]. rewrite Hid.
    cbn [Hooks.mounted Hooks.timerId Hooks.host Host.setInterval fst snd Host.timers] in *.
    destruct Ht as [Ht|Ht]; rewrite Ht.
    + apply delete_insert_id. exact Hh.
    + rewrite delete_insert_id by exact Hh. apply delete_id. exact Hh.
  - apply (class_run_host _ _ _ _ (Host.next_id ch)) in Hcrun as (Hid & _ & _ & Ht);
      [|reflexivity].
    unfold ClassTimer.unmount, ClassTimer.componentWillUnmount.
    cbn [ClassTimer.host ClassTimer.this]. rewrite Hid.
    cbn [Host.clearInterval Host.timers].
    cbn [ClassTimer.mount ClassTimer.componentDidMount ClassTimer.host Host.setInterval
         Host.timers] in Ht.
    destruct Ht as [Ht|Ht]; rewrite Ht.
    + apply delete_insert_id. exact Hch.
    + rewrite delete_insert_id by exact Hch. apply delete_id. exact Hch.
Qed.

Lemma X8_release_restores_host_witness :
  Host.timers (Hooks.host (Hooks.cleanup (changed_to 2 (Hooks.mounted 3 Host.empty))))
  = Host.timers (Host.empty (C := Update Z)).
Proof.
  refine (proj1 (proj2 (X8_release_restores_host Hooks.OnChange 2 3 Host.empty
           [Hooks.Fire 1%positive] (changed_to 2 (Hooks.mounted 3 Host.empty))
           {| ClassTimer.maxCount := Some 3 |} Host.empty
           [ClassTimer.Unmount]
           (ClassTimer.unmount (ClassTimer.mount {| ClassTimer.maxCount := Some 3 |} Host.empty))
           _ _ _ _ _))).
  - lia.
  - reflexivity.
  - reflexivity.
  - reflexivity.
  - reflexivity.
Defined.

(** ** New props while the timer runs *)

Lemma rerender_keeps_counter (deps : Hooks.Deps) (fuel : nat) (w : Hooks.World)
    (m' : Z) (cw : ClassTimer.World) (p : ClassTimer.Props) :
  (1 <= fuel)%nat ->
  Hooks.countLeft (Hooks.latest w) <> 0 ->
  ClassTimer.countLeft (ClassTimer.state (ClassTimer.this cw)) <> 0 ->
  Hooks.step deps fuel (Hooks.Rerender m') w
  = Some {| Hooks.host := Hooks.host w;
            Hooks.latest := {| Hooks.maxCount := m';
                               Hooks.countLeft := Hooks.countLeft (Hooks.latest w) |};
            Hooks.shown := Hooks.shown w ++ [Hooks.countLeft (Hooks.latest w)];
            Hooks.timerId := Hooks.timerId w |} /\
  ClassTimer.step fuel (ClassTimer.Rerender p) cw
  = Some {| ClassTimer.host := ClassTimer.host cw;
            ClassTimer.this :=
              {| ClassTimer.props := p;
                 ClassTimer.state := ClassTimer.state (ClassTimer.this cw);
                 ClassTimer.timerId := ClassTimer.timerId (ClassTimer.this cw);
                 ClassTimer.initialCount := ClassTimer.initialCount (ClassTimer.this cw) |};
            ClassTimer.shown :=
              ClassTimer.shown cw
              ++ [ClassTimer.countLeft (ClassTimer.state (ClassTimer.this cw))] |}.
Proof.
  intros Hfuel Hc Hcc. destruct fuel as [|fuel]; [lia|]. split.
  - cbn [Hooks.step]. rewrite render_nonzero by exact Hc. reflexivity.
  - cbn [ClassTimer.step]. unfold ClassTimer.componentDidUpdate, ClassTimer.set_props.
    cbn [ClassTimer.state]. apply Z.eqb_neq in Hcc. rewrite Hcc. reflexivity.
Qed.

(** X9. New props do not start the counter again: while the counter is
    not zero, a render with another [maxCount] shows the counter as it is
    and leaves it unchanged, even when it is now above [maxCount]; in the
    class-based timer [initialCount] stays as well. *)
Theorem X9_new_props_keep_counter (deps : Hooks.Deps) (fuel : nat) (w : Hooks.World)
    (m' : Z) (cw : ClassTimer.World) (p : ClassTimer.Props) :
  (1 <= fuel)%nat ->
  Hooks.countLeft (Hooks.latest w) <> 0 ->
  ClassTimer.countLeft (ClassTimer.state (ClassTimer.this cw)) <> 0 ->
  Hooks.step deps fuel (Hooks.Rerender m') w
  = Some {| Hooks.host := Hooks.host w;
            Hooks.latest := {| Hooks.maxCount := m';
                               Hooks.countLeft := Hooks.countLeft (Hooks.latest w) |};
            Hooks.shown := Hooks.shown w ++ [Hooks.countLeft (Hooks.latest w)];
            Hooks.timerId := Hooks.timerId w |} /\
  ClassTimer.step fuel (ClassTimer.Rerender p) cw
  = Some {| ClassTimer.host := ClassTimer.host cw;
            ClassTimer.this :=
              {| ClassTimer.props := p;
                 ClassTimer.state := ClassTimer.state (ClassTimer.this cw);
                 ClassTimer.timerId := ClassTimer.timerId (ClassTimer.this cw);
                 ClassTimer.initialCount := ClassTimer.initialCount (ClassTimer.this cw) |};
            ClassTimer.shown :=
              ClassTimer.shown cw
              ++ [ClassTimer.countLeft (ClassTimer.state (ClassTimer.this cw))] |}.
Proof.
  intros Hfuel Hc Hcc.
  destruct fuel as [|fuel]; [lia|].
  split.
  - cbn [Hooks.step]. rewrite render_nonzero by exact Hc. reflexivity.
  - cbn [ClassTimer.step]. unfold ClassTimer.componentDidUpdate, ClassTimer.set_props.
    cbn [ClassTimer.state].
    destruct (Z.eqb_spec (ClassTimer.countLeft (ClassTimer.state (ClassTimer.this cw))) 0);
      [contradiction|reflexivity].
Qed.

Lemma X9_new_props_keep_counter_witness :
  Hooks.step Hooks.OnChange 1 (Hooks.Rerender 10) (Hooks.mounted 60 Host.empty)
  = Some {| Hooks.host := Hooks.host (Hooks.mounted 60 Host.empty);
            Hooks.latest := {| Hooks.maxCount := 10; Hooks.countLeft := 60 |};
            Hooks.shown := [60] ++ [60];
            Hooks.timerId := 1%positive |}.
Proof.
  refine (proj1 (X9_new_props_keep_counter Hooks.OnChange 1 (Hooks.mounted 60 Host.empty) 10
           (ClassTimer.mount {| ClassTimer.maxCount := Some 60 |} Host.empty)
           {| ClassTimer.maxCount := Some 10 |} _ _ _)).
  - lia.
  - simpl. lia.
  - simpl. lia.
Defined.

Lemma hooks_run_to_wrap (deps : Hooks.Deps) (fuel : nat) (w : Hooks.World) (c : Z) :
  ticking w ->
  Hooks.countLeft (Hooks.latest w) = c ->
  0 < c <= Number.two53 ->
  exists w',
    Hooks.run deps (S (S fuel)) (replicate (Z.to_nat c) (Hooks.Fire (Hooks.timerId w))) w
    = Some w' /\
    Hooks.host w' = Hooks.host w /\ Hooks.timerId w' = Hooks.timerId w /\
    Hooks.latest w' = {| Hooks.maxCount := Hooks.maxCount (Hooks.latest w);
                         Hooks.countLeft := Hooks.maxCount (Hooks.latest w) |}.
Proof.
  intros Ht Ec Hc.
  assert (H53 : 0 < Number.two53) by reflexivity.
  destruct (Z.to_nat c) as [|k] eqn:Hk; [lia|].
  rewrite replicate_snoc, hooks_run_app.
  destruct (run_Fire_no_wrap deps fuel k w Ht) as (w1 & Hrun & Hh & Hid & Hl & Hs);
    try (rewrite Ec; lia).
  rewrite Hrun.
  assert (Ht1 : ticking w1) by (unfold ticking; rewrite Hh, Hid; exact Ht).
  cbn [Hooks.run]. rewrite <- Hid.
  rewrite step_Fire
    by (exact Ht1 || (rewrite Hl; unfold Number.exact; cbn [Hooks.countLeft]; lia)).
  eexists. split; [reflexivity|].
  cbn [changed_to Hooks.host Hooks.timerId Hooks.latest]. rewrite Hl.
  cbn [Hooks.maxCount Hooks.countLeft]. rewrite Ec.
  replace (c - Z.of_nat k - 1) with 0 by lia.
  split; [exact Hh|]. split; reflexivity.
Qed.

Lemma class_run_to_wrap (fuel : nat) (id : positive) (w : ClassTimer.World) :
  class_ticking id w ->
  ClassTimer.initialCount (ClassTimer.this w) <> 0 ->
  0 < ClassTimer.countLeft (ClassTimer.state (ClassTimer.this w)) <= Number.two53 ->
  exists w',
    ClassTimer.run (S (S fuel))
      (replicate (Z.to_nat (ClassTimer.countLeft (ClassTimer.state (ClassTimer.this w))))
         (ClassTimer.Fire id)) w
    = Some w' /\
    ClassTimer.state (ClassTimer.this w')
    = {| ClassTimer.countLeft := ClassTimer.initialCount (ClassTimer.this w) |} /\
    ClassTimer.props (ClassTimer.this w') = ClassTimer.props (ClassTimer.this w).
Proof.
  intros Ht Hi Hc.
  set (c := ClassTimer.countLeft (ClassTimer.state (ClassTimer.this w))) in *.
  destruct (Z.to_nat c) as [|k] eqn:Hk; [lia|].
  rewrite replicate_snoc, class_run_app.
  assert (H53 : 0 < Number.two53) by reflexivity.
  destruct (class_run_Fire_no_wrap (S fuel) k id w Ht) as (w1 & Hrun & Hh & Hth & Hs);
    try (fold c; lia).
  rewrite Hrun.
  assert (Ht1 : class_ticking id w1) by (unfold class_ticking; rewrite Hh; exact Ht).
  cbn [ClassTimer.run].
  rewrite class_step_Fire;
    [|exact Ht1|rewrite Hth; exact Hi
     |rewrite Hth; unfold Number.exact, ClassTimer.set_state;
      cbn [ClassTimer.state ClassTimer.countLeft]; fold c; lia].
  eexists. split; [reflexivity|].
  unfold class_changed_to. cbn [ClassTimer.this]. rewrite Hth.
  unfold ClassTimer.set_state.
  cbn [ClassTimer.state ClassTimer.countLeft ClassTimer.initialCount ClassTimer.props].
  fold c. replace (c - Z.of_nat k - 1) with 0 by lia.
  split; reflexivity.
Qed.

(** X10. Where the counter wraps to after new props, for a positive
    integer counter not above [2^53] and firings that are each rendered
    before the next.  In the hook-based timers the boundary effect uses
    the [maxCount] of the render in which the counter is zero: after a
    render with [maxCount] [m'], the counter runs down from where it was
    and wraps to [m'].  In the class-based timer the wrap goes to
    [initialCount], whatever the new props say. *)
Theorem X10_wrap_target_after_new_props (deps : Hooks.Deps) (fuel : nat)
    (w : Hooks.World) (m' : Z) (id : positive) (cw : ClassTimer.World)
    (p : ClassTimer.Props) :
  (2 <= fuel)%nat ->
  ticking w ->
  0 < Hooks.countLeft (Hooks.latest w) <= Number.two53 ->
  class_ticking id cw ->
  0 < ClassTimer.countLeft (ClassTimer.state (ClassTimer.this cw)) <= Number.two53 ->
  ClassTimer.initialCount (ClassTimer.this cw) <> 0 ->
  (exists w',
      Hooks.run deps fuel
        (Hooks.Rerender m'
         :: replicate (Z.to_nat (Hooks.countLeft (Hooks.latest w)))
              (Hooks.Fire (Hooks.timerId w))) w
      = Some w' /\
      Hooks.latest w' = {| Hooks.maxCount := m'; Hooks.countLeft := m' |}) /\
  (exists cw',
      ClassTimer.run fuel
        (ClassTimer.Rerender p
         :: replicate (Z.to_nat (ClassTimer.countLeft (ClassTimer.state (ClassTimer.this cw))))
              (ClassTimer.Fire id)) cw
      = Some cw' /\
      ClassTimer.props (ClassTimer.this cw') = p /\
      ClassTimer.state (ClassTimer.this cw')
      = {| ClassTimer.countLeft := ClassTimer.initialCount (ClassTimer.this cw) |}).
Proof.
  intros Hfuel Ht Hc Hct Hcc Hi. destruct fuel as [|[|fuel]]; try lia.
  destruct (rerender_keeps_counter deps (S (S fuel)) w m' cw p) as [H1 H2];
    try lia.
  split.
  - cbn [Hooks.run]. rewrite H1.
    match goal with |- context [Hooks.run _ _ _ ?w1] => set (w1' := w1) end.
    destruct (hooks_run_to_wrap deps fuel w1' (Hooks.countLeft (Hooks.latest w)))
      as (w' & Hrun & _ & _ & Hl).
    { exact Ht. }
    { reflexivity. }
    { exact Hc. }
    exists w'. split; [exact Hrun|exact Hl].
  - cbn [ClassTimer.run]. rewrite H2.
    match goal with |- context [ClassTimer.run _ _ ?w1] => set (w1' := w1) end.
    destruct (class_run_to_wrap fuel id w1') as (cw' & Hrun & Hs & Hp).
    { exact Hct. }
    { exact Hi. }
    { exact Hcc. }
    exists cw'. split; [exact Hrun|]. split; [exact Hp|exact Hs].
Qed.

Lemma X10_wrap_target_after_new_props_witness :
  exists w',
    Hooks.run Hooks.EveryRender 2
      (Hooks.Rerender 5 :: replicate (Z.to_nat 3) (Hooks.Fire 1%positive))
      (Hooks.mounted 3 Host.empty)
    = Some w' /\
    Hooks.latest w' = {| Hooks.maxCount := 5; Hooks.countLeft := 5 |}.
Proof.
  refine (proj1 (X10_wrap_target_after_new_props Hooks.EveryRender 2
           (Hooks.mounted 3 Host.empty) 5 1%positive
           (ClassTimer.mount {| ClassTimer.maxCount := Some 3 |} Host.empty)
           {| ClassTimer.maxCount := Some 5 |} _ _ _ _ _ _)).
  - lia.
  - reflexivity.
  - split; reflexivity || (intros H; discriminate H).
  - reflexivity.
  - split; reflexivity || (intros H; discriminate H).
  - simpl. lia.
Defined.

(** ** The cycle of the class-based timer *)

Lemma class_only_ticks_mount (p : ClassTimer.Props) :
  class_only_ticks (ClassTimer.host (ClassTimer.mount p Host.empty)).
Proof.
  intros id cb H. unfold Host.task in H.
  cbn [ClassTimer.mount ClassTimer.componentDidMount ClassTimer.host Host.setInterval
       Host.empty Host.timers Host.next_id] in H.
  destruct (decide (1%positive = id)) as [E|Hne].
  - rewrite <- E in H. rewrite lookup_insert_eq in H. injection H as <-. reflexivity.
  - rewrite lookup_insert_ne in H by exact Hne. rewrite lookup_empty in H. discriminate.
Qed.





(** ** The hook-based and the class-based timer side by side *)

Lemma same_counter_mounted (m : Z) :
  m <> 0 ->
  same_counter m (Hooks.mounted m Host.empty)
    (ClassTimer.mount {| ClassTimer.maxCount := Some m |} Host.empty).
Proof.
  intros Hm.
  unfold same_counter. split; [reflexivity|]. split; [reflexivity|].
  split; [reflexivity|]. split; [reflexivity|].
  split; [apply only_ticks_setInterval, only_ticks_empty|].
  split; [apply class_only_ticks_mount|].
  split; [|exact Hm].
  intros id. unfold Host.task.
  cbn [Hooks.mounted Hooks.host ClassTimer.mount ClassTimer.componentDidMount
       ClassTimer.host Host.setInterval Host.empty Host.timers Host.next_id snd].
  rewrite !lookup_insert. destruct (decide (1%positive = id)).
  - split; discriminate.
  - rewrite !lookup_empty. split; reflexivity.
Qed.

Lemma countLeft_flushed (q : list (Update Z)) (w : Hooks.World) :
  Hooks.countLeft (Hooks.latest w) <> 0 ->
  Hooks.countLeft (Hooks.latest (flushed q w))
  = after_effect (Hooks.maxCount (Hooks.latest w))
      (process_queue q (Hooks.countLeft (Hooks.latest w))).
Proof.
  intros Hc. unfold flushed, after_effect.
  destruct (Z.eqb_spec (process_queue q (Hooks.countLeft (Hooks.latest w)))
              (Hooks.countLeft (Hooks.latest w))) as [E|E].
  - rewrite E. apply Z.eqb_neq in Hc. rewrite Hc. reflexivity.
  - reflexivity.
Qed.

Lemma host_flushed (q : list (Update Z)) (w : Hooks.World) :
  Hooks.host (flushed q w) = Hooks.host w /\ Hooks.timerId (flushed q w) = Hooks.timerId w.
Proof. unfold flushed. destruct (_ =? _); split; reflexivity. Qed.

(** The two timers after updates that give the same counter. *)
Lemma same_counter_update (deps : Hooks.Deps) (fuel : nat) (m : Z)
    (q : list (Update Z)) (u : Update ClassTimer.State)
    (w : Hooks.World) (cw : ClassTimer.World) :
  m <> 0 -> same_counter m w cw ->
  ClassTimer.countLeft (apply_update u (ClassTimer.state (ClassTimer.this cw)))
  = process_queue q (Hooks.countLeft (Hooks.latest w)) ->
  exists w' cw',
    Hooks.flush deps (S (S fuel)) q w = Some w' /\
    ClassTimer.with_this cw
      (ClassTimer.setState (S (S fuel)) u (ClassTimer.this cw) (ClassTimer.shown cw))
    = Some cw' /\
    same_counter m w' cw'.
Proof.
  intros Hm (Hmax & Hi & Hc & Hid & Hh & Hch & Hdom & Hnz) Hu.
  rewrite flush_flushed.
  rewrite setState_two_passes by (lia || (rewrite Hi; exact Hm)).
  eexists _, _. split; [reflexivity|]. split; [reflexivity|].
  destruct (host_flushed q w) as [Hhost Htid].
  unfold same_counter. rewrite countLeft_flushed by exact Hnz.
  rewrite maxCount_flushed, Hhost, Htid.
  unfold ClassTimer.set_state.
  cbn [ClassTimer.this ClassTimer.initialCount ClassTimer.state ClassTimer.countLeft
       ClassTimer.timerId ClassTimer.host].
  rewrite Hu, Hmax, Hi.
  split; [reflexivity|]. split; [reflexivity|]. split; [reflexivity|].
  split; [exact Hid|]. split; [exact Hh|]. split; [exact Hch|]. split; [exact Hdom|].
  unfold after_effect. destruct (Z.eqb_spec (process_queue q (Hooks.countLeft (Hooks.latest w))) 0);
    assumption.
Qed.

(** The triggers of a batch put corresponding updates in the two queues. *)
Lemma queued_alike (m : Z) (w : Hooks.World) (cw : ClassTimer.World) (ts : list Trigger) :
  same_counter m w cw ->
  length (flat_map (Hooks.queued w) ts) = length (flat_map (ClassTimer.queued cw) ts) /\
  forall s,
    ClassTimer.countLeft (process_queue (flat_map (ClassTimer.queued cw) ts) s)
    = process_queue (flat_map (Hooks.queued w) ts) (ClassTimer.countLeft s).
Proof.
  intros (Hmax & Hi & Hc & Hid & Hh & Hch & Hdom & Hnz).
  induction ts as [|t ts [IHl IHp]]; [split; [reflexivity|intros s; reflexivity]|].
  cbn [flat_map]. rewrite !length_app.
  assert (Ht : length (Hooks.queued w t) = length (ClassTimer.queued cw t) /\
               forall s, ClassTimer.countLeft (process_queue (ClassTimer.queued cw t) s)
                         = process_queue (Hooks.queued w t) (ClassTimer.countLeft s)).
  { destruct t as [id|]; cbn [Hooks.queued ClassTimer.queued].
    - destruct (Host.task id (Hooks.host w)) as [cb|] eqn:E1;
        destruct (Host.task id (ClassTimer.host cw)) as [ccb|] eqn:E2.
      + rewrite (Hh id cb E1), (Hch id ccb E2). split; [reflexivity|intros s; reflexivity].
      + apply Hdom in E2. congruence.
      + apply Hdom in E1. congruence.
      + split; [reflexivity|intros s; reflexivity].
    - split; [reflexivity|]. intros s.
      cbn [process_queue apply_update Hooks.reset ClassTimer.reset ClassTimer.countLeft].
      rewrite Hmax, Hi. reflexivity. }
  destruct Ht as [Htl Htp]. split; [rewrite Htl, IHl; reflexivity|].
  intros s. rewrite !process_queue_app, IHp, Htp. reflexivity.
Qed.

Lemma same_counter_step (deps : Hooks.Deps) (fuel : nat) (m : Z) (e : Hooks.Event)
    (w : Hooks.World) (cw : ClassTimer.World) :
  m <> 0 -> same_counter m w cw -> Hooks.keeps_maxCount e = true ->
  exists w' cw',
    Hooks.step deps (S (S fuel)) e w = Some w' /\
    ClassTimer.step (S (S fuel)) (to_class_event e) cw = Some cw' /\
    same_counter m w' cw'.
Proof.
  intros Hm Hs He.
  pose proof Hs as (Hmax & Hi & Hc & Hid & Hh & Hch & Hdom & Hnz).
  destruct e as [id| |m'| |ts]; try discriminate; cbn [to_class_event].
  - cbn [Hooks.step ClassTimer.step].
    destruct (Host.task id (Hooks.host w)) as [cb|] eqn:Ht;
      destruct (Host.task id (ClassTimer.host cw)) as [ccb|] eqn:Hct.
    + rewrite (Hh id cb Ht), (Hch id ccb Hct).
      apply same_counter_update; [exact Hm|exact Hs|].
      cbn [apply_update process_queue ClassTimer.countLeft]. rewrite Hc. reflexivity.
    + apply Hdom in Hct. congruence.
    + apply Hdom in Ht. congruence.
    + exists w, cw. split; [reflexivity|]. split; [reflexivity|exact Hs].
  - cbn [Hooks.step ClassTimer.step].
    apply same_counter_update; [exact Hm|exact Hs|].
    cbn [apply_update process_queue ClassTimer.reset Hooks.reset ClassTimer.countLeft].
    rewrite Hmax, Hi. reflexivity.
  - cbn [Hooks.step ClassTimer.step].
    eexists _, _. split; [reflexivity|]. split; [reflexivity|].
    unfold same_counter, ClassTimer.unmount, ClassTimer.componentWillUnmount.
    cbn [Hooks.cleanup Hooks.latest Hooks.host Hooks.timerId ClassTimer.this ClassTimer.host].
    rewrite Hid.
    split; [exact Hmax|]. split; [exact Hi|]. split; [exact Hc|]. split; [reflexivity|].
    split; [apply only_ticks_clearInterval; exact Hh|].
    split; [|split; [|exact Hnz]].
    + intros id' cb H. unfold Host.task in H. cbn [Host.clearInterval Host.timers] in H.
      apply lookup_delete_Some in H as [_ H]. apply (Hch id'). exact H.
    + intros id'. unfold Host.task. cbn [Host.clearInterval Host.timers].
      rewrite !lookup_delete. destruct (decide (Hooks.timerId w = id')).
      * split; reflexivity.
      * apply Hdom.
  - cbn [Hooks.step ClassTimer.step]. unfold ClassTimer.setState_queue.
    destruct (queued_alike m w cw ts Hs) as [Hlen Hq].
    destruct (flat_map (ClassTimer.queued cw) ts) as [|cu cq] eqn:Ecq.
    + destruct (flat_map (Hooks.queued w) ts) as [|hu hq]; [|discriminate Hlen].
      rewrite flush_flushed. exists w, cw.
      split; [|split; [reflexivity|exact Hs]].
      unfold flushed. cbn [process_queue]. rewrite Z.eqb_refl. reflexivity.
    + apply same_counter_update; [exact Hm|exact Hs|].
      cbn [apply_update]. rewrite Hq, Hc. reflexivity.
Qed.

(** X12. The hook-based and the class-based timer count alike: mounted
    with the same [maxCount] other than zero and given the same firings,
    resets and unmounts, neither fails and both have the same counter
    afterwards. *)
Theorem X12_hook_and_class_count_alike (deps : Hooks.Deps) (fuel : nat) (m : Z)
    (es : list Hooks.Event) :
  (2 <= fuel)%nat ->
  m <> 0 ->
  forallb Hooks.keeps_maxCount es = true ->
  exists w cw,
    Hooks.run deps fuel es (Hooks.mounted m Host.empty) = Some w /\
    ClassTimer.run fuel (map to_class_event es)
      (ClassTimer.mount {| ClassTimer.maxCount := Some m |} Host.empty) = Some cw /\
    Hooks.countLeft (Hooks.latest w)
    = ClassTimer.countLeft (ClassTimer.state (ClassTimer.this cw)).
Proof.
  intros Hfuel Hm Hes. destruct fuel as [|[|fuel]]; try lia.
  assert (Hrun : forall w0 cw0, same_counter m w0 cw0 ->
            exists w cw,
              Hooks.run deps (S (S fuel)) es w0 = Some w /\
              ClassTimer.run (S (S fuel)) (map to_class_event es) cw0 = Some cw /\
              same_counter m w cw).
  { induction es as [|e es IH]; intros w0 cw0 Hs.
    - exists w0, cw0. split; [reflexivity|]. split; [reflexivity|exact Hs].
    - cbn [forallb] in Hes. apply andb_prop in Hes as [He Hes].
      destruct (same_counter_step deps fuel m e w0 cw0 Hm Hs He) as (w1 & cw1 & H1 & H2 & Hs1).
      cbn [Hooks.run ClassTimer.run map]. rewrite H1, H2. apply IH; assumption. }
  destruct (Hrun _ _ (same_counter_mounted m Hm)) as (w & cw & H1 & H2 & Hs).
  exists w, cw. split; [exact H1|]. split; [exact H2|].
  destruct Hs as (_ & _ & Hc & _). exact Hc.
Qed.

Lemma X12_hook_and_class_count_alike_witness :
  exists w cw,
    Hooks.run Hooks.EveryRender 2
      [Hooks.Fire 1%positive; Hooks.Click; Hooks.Fire 1%positive; Hooks.Fire 1%positive;
       Hooks.Unmount; Hooks.Fire 1%positive]
      (Hooks.mounted 2 Host.empty) = Some w /\
    ClassTimer.run 2
      (map to_class_event
         [Hooks.Fire 1%positive; Hooks.Click; Hooks.Fire 1%positive; Hooks.Fire 1%positive;
          Hooks.Unmount; Hooks.Fire 1%positive])
      (ClassTimer.mount {| ClassTimer.maxCount := Some 2 |} Host.empty) = Some cw /\
    Hooks.countLeft (Hooks.latest w)
    = ClassTimer.countLeft (ClassTimer.state (ClassTimer.this cw)).
Proof.
  apply (X12_hook_and_class_count_alike Hooks.EveryRender 2 2
           [Hooks.Fire 1%positive; Hooks.Click; Hooks.Fire 1%positive; Hooks.Fire 1%positive;
            Hooks.Unmount; Hooks.Fire 1%positive]).
  - lia.
  - lia.
  - reflexivity.
Defined.

(** ** Firings and the subtraction of binary64 *)







(** C3, as stated, fails above [2^53]: with [maxCount] [2^53 + 2] the
    first firing gives [2^53], because [2^53 + 1] is not a number and the
    subtraction rounds; from there the counter reaches zero and wraps one
    firing early, so that after [maxCount] firings it is at [2^53], not
    back at [maxCount]. *)
Lemma C3_no_return_above_two53 :
  exists w,
    Hooks.run Hooks.EveryRender 2
      (replicate (Z.to_nat (Number.two53 + 2)) (Hooks.Fire 1%positive))
      (Hooks.mounted (Number.two53 + 2) Host.empty) = Some w /\
    Hooks.countLeft (Hooks.latest w) = Number.two53 /\
    Hooks.latest w <> Hooks.latest (Hooks.mounted (Number.two53 + 2) Host.empty).
Proof.
  set (w0 := Hooks.mounted (Number.two53 + 2) Host.empty).
  set (w1 := changed_to Number.two53 w0).
  assert (E : Z.to_nat (Number.two53 + 2) = (1 + (Z.to_nat Number.two53 + 1))%nat)
    by (unfold Number.two53; lia).
  assert (H1 : Hooks.step Hooks.EveryRender 2 (Hooks.Fire 1%positive) w0 = Some w1)
    by reflexivity.
  destruct (hooks_run_to_wrap Hooks.EveryRender 0 w1 Number.two53)
    as (w2 & Hrun & Hh & Hid & Hl).
  { reflexivity. }
  { reflexivity. }
  { split; reflexivity || (intros H; discriminate H). }
  change (Hooks.timerId w1) with 1%positive in Hrun.
  assert (Ht2 : Host.task 1%positive (Hooks.host w2)
                = Some (Hooks.tick (Hooks.latest w2))).
  { rewrite Hh. reflexivity. }
  exists (flushed [Hooks.tick (Hooks.latest w2)] w2).
  assert (Hc : Hooks.countLeft (Hooks.latest (flushed [Hooks.tick (Hooks.latest w2)] w2))
               = Number.two53).
  { rewrite countLeft_flushed by (rewrite Hl; discriminate).
    rewrite Hl. reflexivity. }
  split; [|split; [exact Hc|]].
  - rewrite E, !replicate_add.
    change (replicate 1 (Hooks.Fire 1%positive)) with [Hooks.Fire 1%positive].
    rewrite hooks_run_app. cbn [Hooks.run]. rewrite H1.
    rewrite hooks_run_app, Hrun.
    cbn [Hooks.run Hooks.step]. rewrite Ht2. rewrite flush_flushed. reflexivity.
  - intros Heq. rewrite Heq in Hc. discriminate Hc.
Qed.
